(** * The fan-out aggregation orchestrator

    A shallow embedding of [src/clients.py] (the retrying request executor
    and the four service clients) and of [src/orchestrator_service.py]
    (the coordinator, the metadata, summary, ranking and trend computations
    and the health prober), with the properties the specification states
    about them.

    Conventions of the embedding.
    - JSON objects with a fixed set of optional keys (a user, a scraped
      account, a metric item, the metrics bundle) are records whose fields
      are [option]s: [None] is a key that is missing, so [d.get(k, v)] is
      [default v (field d)].  The field types are the ones [src/models.py]
      and the data model give: identifiers and counters are integers,
      dates and names are strings.
    - The engagement of an item is read in two ways.  Where only the
      order of the items, the split into halves and the counts matter, it
      is an exact rational ([Q]).  Where the result depends on the
      arithmetic (the average of the summary, the label and the growth
      rate of the trend), module [binary64] has Python's numbers: an [int]
      of any size or a binary64 [float], with the rounding and the errors
      of CPython's [+], [-], [*], [/], comparisons and [round(x, 2)].
    - A string is the UTF-8 encoding of a Python [str]; slicing and length
      count characters, not bytes.
    - [datetime.now()] is an argument [now] of the functions that read the
      clock.
    - Awaiting a coroutine yields an [outcome]: a value or a raised
      exception. *)

From Stdlib Require Import QArith Qround Lqa Floats.
From stdpp Require Import gmap strings list fin_maps sorting.

Local Open Scope Z_scope.
Local Set Warnings "-inexact-float".

(** ** Awaited results and exceptions *)

(** The exception classes the code distinguishes in its [except] clauses. *)
Inductive exn : Type :=
  | TimeoutError                               (* asyncio.TimeoutError *)
  | HTTPStatusError (status : Z) (msg : string) (* httpx.HTTPStatusError *)
  | OtherError (msg : string).                 (* any other Exception *)

(** [str(e)] *)
Definition str (e : exn) : string :=
  match e with
  | TimeoutError => ""
  | HTTPStatusError _ msg => msg
  | OtherError msg => msg
  end.

Inductive outcome (A : Type) : Type :=
  | Return (a : A)
  | Raise (e : exn).
Arguments Return {A} a.
Arguments Raise {A} e.

Definition bind {A B} (m : outcome A) (k : A → outcome B) : outcome B :=
  match m with
  | Return a => k a
  | Raise e => Raise e
  end.

(** [try: body except Exception: handler] *)
Definition try_except {A} (body : outcome A) (handler : exn → A) : outcome A :=
  match body with
  | Return a => Return a
  | Raise e => Return (handler e)
  end.

(** [isinstance(r, Exception)] on an entry of
    [asyncio.gather(..., return_exceptions=True)] *)
Definition is_exception {A} (r : outcome A) : bool :=
  match r with
  | Return _ => false
  | Raise _ => true
  end.

Definition raises {A} (r : outcome A) : Prop := is_exception r = true.

(** ** Data model *)

(** Opaque JSON payloads (dashboard entries). *)
#[warnings="-register-all"]
Inductive json : Type :=
  | JNull
  | JNum (q : Q)
  | JStr (s : string)
  | JArr (l : list json)
  | JObj (fields : list (string * json)).

Record UserData : Type := mkUser {
  u_id : option Z;
  u_email : option string;
  u_role : option string;
  u_created_at : option string
}.

Record ScrapedAccountData : Type := mkAccount {
  a_account : option string;
  a_userId : option Z;
  a_user_id : option Z
}.

Record MetricItem : Type := mkItem {
  postId : option string;
  usernameTiktokAccount : option string;
  datePosted : option string;
  views : option Z;
  likes : option Z;
  totalInteractions : option Z;
  engagement : option Q
}.

(** The metrics bundle is a dict; each of its three keys may be missing
    (the coordinator's own fallback is the empty dict). *)
Record MetricsData : Type := mkMetrics {
  m_items : option (list MetricItem);
  m_count : option Z;
  m_dashboard : option (list json)
}.

Definition empty_dict : MetricsData := mkMetrics None None None.
Definition metrics_default : MetricsData := mkMetrics (Some []) (Some 0) (Some []).

Record ConsolidatedMetadata : Type := mkMetadata {
  total_users : nat;
  total_accounts : nat;
  total_posts_analyzed : Z;
  timestamp : string;
  services_status : gmap string string
}.

Record ConsolidatedResponse : Type := mkConsolidated {
  users : list UserData;
  scraped_accounts : list ScrapedAccountData;
  metrics : MetricsData;
  dashboard_data : list json;
  metadata : ConsolidatedMetadata
}.

(** Truthiness of a list: [if xs]. *)
Definition truthy_list {A} (l : list A) : bool :=
  match l with
  | [] => false
  | _ :: _ => true
  end.

(** ** [OrchestratorService._build_metadata] *)

Definition ok_if (b : bool) : string := if b then "ok" else "no_data".

Definition _build_metadata (now : string) (us : list UserData)
    (accs : list ScrapedAccountData) (ms : MetricsData) (dash : list json)
    : ConsolidatedMetadata :=
  let services_status : gmap string string :=
    <["microservice4" := ok_if (truthy_list dash)]>
    (<["microservice3" := ok_if (0 <? default 0 (m_count ms))]>
    (<["microservice2" := ok_if (truthy_list accs)]>
    (<["microservice1" := ok_if (truthy_list us)]> ∅))) in
  {| total_users := length us;
     total_accounts := length accs;
     total_posts_analyzed := default 0 (m_count ms);
     timestamp := now;
     services_status := services_status |}.


(** ** [BaseClient._make_request]: the retrying request executor *)

Record BaseClient : Type := mkBaseClient {
  timeout : Z;          (* REQUEST_TIMEOUT *)
  max_retries : Z;      (* MAX_RETRIES *)
  retry_delay : Q       (* RETRY_DELAY *)
}.

(** What the executor does to the outside world, in order. *)
Inductive event : Type :=
  | EvRequest (attempt : nat)       (* client.request(...) of this attempt *)
  | EvSleep (delay : Q)             (* asyncio.sleep(self.retry_delay) *)
  | EvWarning                       (* logger.warning *)
  | EvError.                        (* logger.error *)

(** A remote endpoint as the executor sees it: the outcome of the body of
    the [try] block (send the request, [raise_for_status], parse the JSON
    body) at each attempt, numbered from 0. *)
Definition endpoint (A : Type) : Type := nat → outcome A.

(** The [for attempt in range(self.max_retries)] loop, from iteration
    [attempt] on, with [remaining] iterations left. The result is the
    returned value ([None] is Python's None) and the events emitted. *)
Fixpoint retry_loop {A} (self : BaseClient) (ep : endpoint A)
    (attempt remaining : nat) : option A * list event :=
  match remaining with
  | O => (None, [])
  | S remaining' =>
    match ep attempt with
    | Return payload => (Some payload, [EvRequest attempt])
    | Raise (HTTPStatusError _ _) =>
      if Z.of_nat attempt <? max_retries self - 1 then
        let '(r, evs) := retry_loop self ep (S attempt) remaining' in
        (r, EvRequest attempt :: EvWarning :: EvSleep (retry_delay self) :: evs)
      else (None, [EvRequest attempt; EvWarning; EvError])
    | Raise _ =>
      if Z.of_nat attempt <? max_retries self - 1 then
        let '(r, evs) := retry_loop self ep (S attempt) remaining' in
        (r, EvRequest attempt :: EvError :: EvSleep (retry_delay self) :: evs)
      else (None, [EvRequest attempt; EvError])
    end
  end.

Definition _make_request {A} (self : BaseClient) (ep : endpoint A)
    : option A * list event :=
  retry_loop self ep 0 (Z.to_nat (max_retries self)).

(** The attempts made, read off the events. *)
Definition attempts_made (evs : list event) : list nat :=
  omap (λ ev, match ev with EvRequest n => Some n | _ => None end) evs.

(** ** The service clients *)

(** [k in d] for an optional key of a record-like dict. *)
Definition has_key {A} (field : option A) : bool :=
  match field with
  | Some _ => true
  | None => false
  end.

(** Truthiness of a parsed JSON object: a dict is truthy when it has a key. *)
Definition truthy_user (u : UserData) : bool :=
  has_key (u_id u) || has_key (u_email u) ||
  has_key (u_role u) || has_key (u_created_at u).

Definition truthy_metrics (m : MetricsData) : bool :=
  has_key (m_items m) || has_key (m_count m) || has_key (m_dashboard m).

(** Truthiness of an optional integer: [if user_id]. *)
Definition truthy_int (n : option Z) : bool :=
  match n with
  | Some z => negb (z =? 0)
  | None => false
  end.

(** The remote services, one [endpoint] per entry of [ENDPOINTS]; the
    request headers, the path parameter and the JSON body select the
    endpoint's behaviour. *)
Record Upstream : Type := mkUpstream {
  ep_users : gmap string string → endpoint (list UserData);
  ep_profile : Z → gmap string string → endpoint UserData;
  ep_scraped_accounts : gmap string string → endpoint (list ScrapedAccountData);
  ep_scraped_accounts_by_user :
    Z → gmap string string → endpoint (list ScrapedAccountData);
  ep_dbquery_user : gmap string json → endpoint MetricsData;
  ep_dashboard : endpoint (list json)
}.

(** [headers = {}; if token: headers["Authorization"] = f"Bearer {token}"] *)
Definition auth_headers (token : option string) : gmap string string :=
  match token with
  | Some t => if String.eqb t "" then ∅ else {[ "Authorization" := "Bearer " +:+ t ]}
  | None => ∅
  end.

(** [response if response else []] *)
Definition list_or_empty {A} (response : option (list A)) : list A :=
  match response with
  | Some r => if truthy_list r then r else []
  | None => []
  end.

Definition get_all_users (self : BaseClient) (up : Upstream)
    (token : option string) : list UserData :=
  list_or_empty (_make_request self (ep_users up (auth_headers token))).1.

Definition get_user_profile (self : BaseClient) (up : Upstream)
    (user_id : Z) (token : option string) : option UserData :=
  (_make_request self (ep_profile up user_id (auth_headers token))).1.

Definition get_all_scraped_accounts (self : BaseClient) (up : Upstream)
    (token : option string) : list ScrapedAccountData :=
  list_or_empty (_make_request self (ep_scraped_accounts up (auth_headers token))).1.

Definition get_scraped_accounts_by_user (self : BaseClient) (up : Upstream)
    (user_id : Z) (token : option string) : list ScrapedAccountData :=
  list_or_empty
    (_make_request self (ep_scraped_accounts_by_user up user_id (auth_headers token))).1.

(** The body of the metrics query: [userId] only for a truthy [user_id],
    then the filters on top. *)
Definition metrics_payload (user_id : option Z)
    (filters : option (gmap string json)) : gmap string json :=
  let payload : gmap string json :=
    match user_id with
    | Some id => if truthy_int user_id then {[ "userId" := JNum (inject_Z id) ]} else ∅
    | None => ∅
    end in
  match filters with
  | Some f => if decide (f = ∅) then payload else f ∪ payload
  | None => payload
  end.

Definition query_user_metrics (self : BaseClient) (up : Upstream)
    (user_id : option Z) (filters : option (gmap string json)) : MetricsData :=
  match (_make_request self (ep_dbquery_user up (metrics_payload user_id filters))).1 with
  | Some r => if truthy_metrics r then r else metrics_default
  | None => metrics_default
  end.

Definition get_dashboard_info (self : BaseClient) (up : Upstream) : list json :=
  list_or_empty (_make_request self (ep_dashboard up)).1.

(** ** [OrchestratorService]: the coordinator *)

(** The four client objects held by the service ([self.ms1_client] ...
    [self.ms4_client]), as the coordinator uses them: each operation is a
    coroutine whose await either returns or raises. *)
Record Clients : Type := mkClients {
  ms1_get_all_users : outcome (list UserData);
  ms1_get_user_profile : Z → outcome (option UserData);
  ms2_get_all_scraped_accounts : outcome (list ScrapedAccountData);
  ms2_get_scraped_accounts_by_user : Z → outcome (list ScrapedAccountData);
  ms3_query_user_metrics : option Z → outcome MetricsData;
  ms4_get_dashboard_info : outcome (list json)
}.

(** The clients of [src/clients.py], on top of the request executor. They
    never raise: the executor turns every failure into None. *)
Definition http_clients (cfg : BaseClient) (up : Upstream) : Clients :=
  {| ms1_get_all_users := Return (get_all_users cfg up None);
     ms1_get_user_profile := λ id, Return (get_user_profile cfg up id None);
     ms2_get_all_scraped_accounts := Return (get_all_scraped_accounts cfg up None);
     ms2_get_scraped_accounts_by_user :=
       λ id, Return (get_scraped_accounts_by_user cfg up id None);
     ms3_query_user_metrics := λ uid, Return (query_user_metrics cfg up uid None);
     ms4_get_dashboard_info := Return (get_dashboard_info cfg up) |}.

(** The bodies of the [try] blocks of the four branches. *)
Definition users_call (cl : Clients) (user_id : option Z) : outcome (list UserData) :=
  match user_id with
  | Some id =>
    if truthy_int user_id then
      bind (ms1_get_user_profile cl id) (λ profile,
        Return match profile with
               | Some p => if truthy_user p then [p] else []
               | None => []
               end)
    else ms1_get_all_users cl
  | None => ms1_get_all_users cl
  end.

Definition accounts_call (cl : Clients) (user_id : option Z)
    : outcome (list ScrapedAccountData) :=
  match user_id with
  | Some id =>
    if truthy_int user_id then ms2_get_scraped_accounts_by_user cl id
    else ms2_get_all_scraped_accounts cl
  | None => ms2_get_all_scraped_accounts cl
  end.

Definition metrics_call (cl : Clients) (user_id : option Z) : outcome MetricsData :=
  ms3_query_user_metrics cl user_id.

Definition dashboard_call (cl : Clients) : outcome (list json) :=
  ms4_get_dashboard_info cl.

(** The branches: [try: return await ... except Exception: return default]. *)
Definition _get_users_data (cl : Clients) (user_id : option Z) : outcome (list UserData) :=
  try_except (users_call cl user_id) (λ _, []).

Definition _get_scraped_accounts_data (cl : Clients) (user_id : option Z)
    : outcome (list ScrapedAccountData) :=
  try_except (accounts_call cl user_id) (λ _, []).

Definition _get_metrics_data (cl : Clients) (user_id : option Z) : outcome MetricsData :=
  try_except (metrics_call cl user_id) (λ _, metrics_default).

Definition _get_dashboard_data (cl : Clients) : outcome (list json) :=
  try_except (dashboard_call cl) (λ _, []).

(** [r if not isinstance(r, Exception) else d] *)
Definition result_or {A} (r : outcome A) (d : A) : A :=
  match r with
  | Return a => a
  | Raise _ => d
  end.

(** [get_consolidated_data]: the four branches are gathered with
    [return_exceptions=True], so the gather itself does not raise and
    hands back one entry per branch, in the order of the task list. *)
Definition get_consolidated_data (cl : Clients) (now : string)
    (user_id : option Z) : outcome ConsolidatedResponse :=
  let results0 := _get_users_data cl user_id in
  let results1 := _get_scraped_accounts_data cl user_id in
  let results2 := _get_metrics_data cl user_id in
  let results3 := _get_dashboard_data cl in
  let users_data := result_or results0 [] in
  let scraped_accounts_data := result_or results1 [] in
  let metrics_data := result_or results2 empty_dict in
  let dashboard_data := result_or results3 [] in
  let metadata :=
    _build_metadata now users_data scraped_accounts_data metrics_data dashboard_data in
  Return {| users := users_data;
            scraped_accounts := scraped_accounts_data;
            metrics := metrics_data;
            dashboard_data := dashboard_data;
            metadata := metadata |}.

(** ** The health prober *)

(** Time enters the prober only through the two [asyncio.wait_for] calls.
    The schedule says, for the probe of each service and for the gather of
    the four probes, whether it is still pending once a given time has
    elapsed. *)
Record Schedule : Type := mkSchedule {
  probe_pending_after : string → Q → bool;
  gather_pending_after : Q → bool
}.

(** [await asyncio.wait_for(aw, timeout)]: TimeoutError when the deadline
    elapses first, otherwise what the awaitable does. *)
Definition wait_for {A} (pending_after : Q → bool) (aw : outcome A) (timeout : Q)
    : outcome A :=
  if pending_after timeout then Raise TimeoutError else aw.

(** A string is the UTF-8 encoding of a Python [str]: a character is a
    byte that is not a continuation byte ([10xxxxxx]), followed by its
    continuation bytes. *)
Definition is_continuation (c : Ascii.ascii) : bool :=
  match c with
  | Ascii.Ascii _ _ _ _ _ _ b6 b7 => b7 && negb b6
  end.

(** [s[:n]]: the first [n] characters of [s]. *)
Fixpoint take_chars (n : nat) (s : string) : string :=
  match s with
  | EmptyString => EmptyString
  | String c s' =>
    if is_continuation c then String c (take_chars n s')
    else match n with
         | O => EmptyString
         | S n' => String c (take_chars n' s')
         end
  end.

(** [len(s)]: the number of characters of [s]. *)
Fixpoint char_length (s : string) : nat :=
  match s with
  | EmptyString => 0
  | String c s' => if is_continuation c then char_length s' else S (char_length s')
  end.

Definition _check_service_health {A} (sched : Schedule) (service_name : string)
    (check_func : outcome A) : outcome (string * string) :=
  match wait_for (probe_pending_after sched service_name) check_func 2.0 with
  | Return _ => Return (service_name, "healthy")
  | Raise TimeoutError => Return (service_name, "timeout")
  | Raise e => Return (service_name, "unhealthy: " +:+ take_chars 50 (str e))
  end.

Definition service_names : list string :=
  ["microservice1"; "microservice2"; "microservice3"; "microservice4"].

(** The loop over [enumerate(results)]. *)
Fixpoint collect_health (i : nat) (results : list (outcome (string * string)))
    (health_status : gmap string string) : gmap string string :=
  match results with
  | [] => health_status
  | result :: rest =>
    collect_health (S i) rest
      match result with
      | Return (name, status) => <[name := status]> health_status
      | Raise _ => <[default "" (service_names !! i) := "timeout"]> health_status
      end
  end.

Definition check_services_health (cl : Clients) (sched : Schedule)
    : outcome (gmap string string) :=
  let tasks :=
    [ _check_service_health sched "microservice1" (ms1_get_all_users cl);
      _check_service_health sched "microservice2" (ms2_get_all_scraped_accounts cl);
      _check_service_health sched "microservice3" (ms3_query_user_metrics cl None);
      _check_service_health sched "microservice4" (ms4_get_dashboard_info cl) ] in
  match wait_for (gather_pending_after sched) (Return tasks) 5.0 with
  | Return results => Return (collect_health 0 results ∅)
  | Raise TimeoutError =>
    Return {[ "microservice1" := "timeout"; "microservice2" := "timeout";
              "microservice3" := "timeout"; "microservice4" := "timeout" ]}
  | Raise e => Raise e
  end.

(** ** The aggregation engine *)

(** In this section an engagement is an exact rational: the definitions
    serve the properties of the order of the items, of the split into
    halves and of the rankings.  The numeric results of the summary and of
    the trend are those of module [binary64] below. *)

(** [sorted(l, key=key)] and [sorted(l, key=key, reverse=True)]. Python's
    sort is stable in both directions; insertion from the right, each
    element stopping in front of the first one it may precede, is the
    stable sort. [le k1 k2] is [k1 <= k2] for the ascending sort and
    [k1 >= k2] for the descending one. *)
Section sorted.
Context {A K : Type} (key : A → K) (le : K → K → bool).

Fixpoint insert_sorted (x : A) (l : list A) : list A :=
  match l with
  | [] => [x]
  | y :: l' => if le (key x) (key y) then x :: l else y :: insert_sorted x l'
  end.

Definition sorted (l : list A) : list A := foldr insert_sorted [] l.
End sorted.

(** [sum(...)]: the additions run left to right, from 0. *)
Definition sum_Z (l : list Z) : Z := foldl Z.add 0 l.
Definition sum_Q (l : list Q) : Q := foldl Qplus 0%Q l.

Definition Qltb (x y : Q) : bool := negb (Qle_bool y x).

(** [round(x, 2)] *)
Definition round_half_even (q : Q) : Z :=
  let f := Qfloor q in
  match (q - inject_Z f ?= 1 # 2)%Q with
  | Lt => f
  | Gt => f + 1
  | Eq => if Z.even f then f else f + 1
  end.

Definition round2 (q : Q) : Q := Qred (inject_Z (round_half_even (q * 100)) / 100).

(** Truthiness of an optional number: [if item.get("engagement")]. *)
Definition truthy_num (x : option Q) : bool :=
  match x with
  | Some q => negb (Qeq_bool q 0)
  | None => false
  end.

(** [consolidated.get("metrics", {}).get("items", [])] *)
Definition items_of (consolidated : ConsolidatedResponse) : list MetricItem :=
  default [] (m_items (metrics consolidated)).

Record SummaryStats : Type := mkSummaryStats {
  ss_total_users : nat;
  ss_total_accounts : nat;
  average_engagement : Q;
  total_views : Z;
  total_likes : Z;
  total_interactions : Z
}.

Definition _calculate_summary_stats (consolidated : ConsolidatedResponse) : SummaryStats :=
  let items := items_of consolidated in
  let total_views := sum_Z ((λ item, default 0 (views item)) <$> items) in
  let total_likes := sum_Z ((λ item, default 0 (likes item)) <$> items) in
  let total_interactions :=
    sum_Z ((λ item, default 0 (totalInteractions item)) <$> items) in
  let engagement_values :=
    (λ item, default 0%Q (engagement item)) <$>
      filter (λ item, truthy_num (engagement item) = true) items in
  let avg_engagement :=
    if truthy_list engagement_values
    then (sum_Q engagement_values / inject_Z (Z.of_nat (length engagement_values)))%Q
    else 0.0%Q in
  {| ss_total_users := total_users (metadata consolidated);
     ss_total_accounts := total_accounts (metadata consolidated);
     average_engagement := round2 avg_engagement;
     total_views := total_views;
     total_likes := total_likes;
     total_interactions := total_interactions |}.

(** A dict in insertion order: [d[k] = f(d.get(k))] keeps the place of a
    key that is present and appends a new one. *)
Fixpoint dict_update {K V} `{EqDecision K} (k : K) (f : option V → V)
    (d : list (K * V)) : list (K * V) :=
  match d with
  | [] => [(k, f None)]
  | (k', v) :: d' =>
    if decide (k' = k) then (k', f (Some v)) :: d'
    else (k', v) :: dict_update k f d'
  end.

(** [a or b] on optional integers *)
Definition or_int (a b : option Z) : option Z := if truthy_int a then a else b.

(** The loop that fills [user_account_count]. *)
Definition count_account (user_account_count : list (Z * Z))
    (account : ScrapedAccountData) : list (Z * Z) :=
  let user_id := or_int (a_userId account) (a_user_id account) in
  match user_id with
  | Some id =>
    if truthy_int user_id
    then dict_update id (λ c, default 0 c + 1) user_account_count
    else user_account_count
  | None => user_account_count
  end.

Record TopUser : Type := mkTopUser {
  tu_user_id : Z;
  accounts_count : Z;
  tu_email : option string       (* None is Python's None *)
}.

(** [next((u.get("email") for u in users if u.get("id") == user_id), "N/A")] *)
Fixpoint email_of (us : list UserData) (user_id : Z) : option string :=
  match us with
  | [] => Some "N/A"
  | u :: us' =>
    if decide (u_id u = Some user_id) then u_email u else email_of us' user_id
  end.

Definition top_users_of (us : list UserData) (accs : list ScrapedAccountData)
    : list TopUser :=
  let user_account_count := foldl count_account [] accs in
  (λ '(user_id, count), mkTopUser user_id count (email_of us user_id)) <$>
    take 5 (sorted snd Z.geb user_account_count).

Record AccountMetrics : Type := mkAccountMetrics {
  am_account : string;
  am_total_views : Z;
  am_total_likes : Z;
  am_total_engagement : Q;
  am_post_count : Z
}.

Definition add_item (account_metrics : list (string * AccountMetrics))
    (item : MetricItem) : list (string * AccountMetrics) :=
  match usernameTiktokAccount item with
  | Some account =>
    if String.eqb account "" then account_metrics
    else dict_update account (λ old,
           let m := default (mkAccountMetrics account 0 0 0%Q 0) old in
           {| am_account := am_account m;
              am_total_views := am_total_views m + default 0 (views item);
              am_total_likes := am_total_likes m + default 0 (likes item);
              am_total_engagement :=
                (am_total_engagement m + default 0 (engagement item))%Q;
              am_post_count := am_post_count m + 1 |}) account_metrics
  | None => account_metrics
  end.

Definition Qgeb (x y : Q) : bool := Qle_bool y x.

Record BestPost : Type := mkBestPost {
  bp_post_id : option string;
  bp_account : option string;
  bp_engagement : option Q;
  bp_views : option Z;
  bp_likes : option Z
}.

Record Rankings : Type := mkRankings {
  top_users : list TopUser;
  top_accounts : list AccountMetrics;
  best_engagement : list BestPost
}.

Definition _calculate_rankings (consolidated : ConsolidatedResponse) : Rankings :=
  let items := items_of consolidated in
  let account_metrics := foldl add_item [] items in
  {| top_users := top_users_of (users consolidated) (scraped_accounts consolidated);
     top_accounts :=
       take 5 (sorted am_total_engagement Qgeb (snd <$> account_metrics));
     best_engagement :=
       (λ post, mkBestPost (postId post) (usernameTiktokAccount post)
                  (engagement post) (views post) (likes post)) <$>
         take 5 (sorted (λ x, default 0%Q (engagement x)) Qgeb items) |}.

Record Trends : Type := mkTrends {
  growth_rate : Q;
  engagement_trend : string
}.

Definition date_key (x : MetricItem) : string := default "" (datePosted x).
Definition engagement_or_0 (i : MetricItem) : Q := default 0%Q (engagement i).

(** [sum(i.get("engagement", 0) for i in half) / n if n > 0 else 0] *)
Definition half_mean (half : list MetricItem) (n : nat) : Q :=
  if (0 <? n)%nat
  then (sum_Q (engagement_or_0 <$> half) / inject_Z (Z.of_nat n))%Q
  else 0%Q.

Definition _calculate_trends (consolidated : ConsolidatedResponse) : Trends :=
  let items := items_of consolidated in
  if (2 <=? length items)%nat then
    let sorted_items := sorted date_key String.leb items in
    let mid := (length sorted_items / 2)%nat in
    let first_half_eng := half_mean (take mid sorted_items) mid in
    let second_half_eng :=
      half_mean (drop mid sorted_items) (length sorted_items - mid) in
    let engagement_trend :=
      if Qltb (first_half_eng * 1.1) second_half_eng then "increasing"
      else if Qltb second_half_eng (first_half_eng * 0.9) then "decreasing"
      else "stable" in
    let growth_rate :=
      if Qltb 0 first_half_eng
      then ((second_half_eng - first_half_eng) / first_half_eng * 100)%Q
      else 0.0%Q in
    {| growth_rate := round2 growth_rate; engagement_trend := engagement_trend |}
  else
    {| growth_rate := round2 0.0; engagement_trend := "insufficient_data" |}.

Record SummaryResponse : Type := mkSummaryResponse {
  summary : SummaryStats;
  rankings : Rankings;
  trends : Trends;
  sr_timestamp : string
}.

(** [get_summary_data]: the consolidated data first, then the three
    computations on it; [now'] is the clock when the summary is stamped. *)
Definition get_summary_data (cl : Clients) (now now' : string)
    (user_id : option Z) : outcome SummaryResponse :=
  bind (get_consolidated_data cl now user_id) (λ consolidated,
    Return {| summary := _calculate_summary_stats consolidated;
              rankings := _calculate_rankings consolidated;
              trends := _calculate_trends consolidated;
              sr_timestamp := now' |}).

(** ** The summary and the trend on Python's numbers *)

(** The results of the summary and of the trend depend on the arithmetic.
    A number of a decoded JSON payload is a Python [int], of any size, or
    a [float], a binary64 value (signed zeros, infinities and nan
    included).  The module repeats the two computations on these numbers:
    the operations round, and raise, as CPython's do. *)
Module binary64.

Inductive number : Type :=
  | PyInt (z : Z)
  | PyFloat (x : float).

(** [OverflowError] and [ZeroDivisionError] are caught by
    [except Exception]. *)
Definition OverflowError (msg : string) : exn := OtherError msg.
Definition ZeroDivisionError (msg : string) : exn := OtherError msg.

Definition Z2SF (z : Z) : spec_float :=
  match z with
  | 0 => S754_zero false
  | Z.pos p => S754_finite false p 0
  | Z.neg p => S754_finite true p 0
  end.

(** The value of a finite float, exactly. *)
Definition SF2Q (x : spec_float) : Q :=
  match x with
  | S754_finite s m e =>
    let v := match e with
             | Z.neg p => (Z.pos m # 2 ^ p)%Q
             | _ => inject_Z (Z.pos m * 2 ^ e)
             end in
    if s then Qopp v else v
  | _ => 0%Q
  end.

(** An [int] as operand of a float operation: the nearest float, ties to
    even; beyond the range of the floats it is an error. *)
Definition float_of_int (z : Z) : outcome float :=
  let x := SF2Prim (binary_normalize prec emax z 0 false) in
  if is_infinity x then Raise (OverflowError "int too large to convert to float")
  else Return x.

Definition to_float (a : number) : outcome float :=
  match a with
  | PyInt z => float_of_int z
  | PyFloat x => Return x
  end.

(** [a + b], [a - b], [a * b]: exact on two [int]s, in binary64 as soon as
    one operand is a [float]. *)
Definition py_add (a b : number) : outcome number :=
  match a, b with
  | PyInt x, PyInt y => Return (PyInt (x + y))
  | _, _ => bind (to_float a) (λ x, bind (to_float b) (λ y, Return (PyFloat (x + y)%float)))
  end.

Definition py_sub (a b : number) : outcome number :=
  match a, b with
  | PyInt x, PyInt y => Return (PyInt (x - y))
  | _, _ => bind (to_float a) (λ x, bind (to_float b) (λ y, Return (PyFloat (x - y)%float)))
  end.

Definition py_mul (a b : number) : outcome number :=
  match a, b with
  | PyInt x, PyInt y => Return (PyInt (x * y))
  | _, _ => bind (to_float a) (λ x, bind (to_float b) (λ y, Return (PyFloat (x * y)%float)))
  end.

(** [a / b]: always a [float]; the quotient of two [int]s is the float
    nearest to the exact quotient, and an error when that is beyond the
    range of the floats. *)
Definition py_truediv (a b : number) : outcome number :=
  match a, b with
  | PyInt x, PyInt y =>
    if y =? 0 then Raise (ZeroDivisionError "division by zero")
    else
      let q := SF2Prim (SFdiv prec emax (Z2SF x) (Z2SF y)) in
      if is_infinity q
      then Raise (OverflowError "integer division result too large for a float")
      else Return (PyFloat q)
  | _, _ =>
    bind (to_float a) (λ x, bind (to_float b) (λ y,
      if (y =? 0)%float then Raise (ZeroDivisionError "float division by zero")
      else Return (PyFloat (x / y)%float)))
  end.

(** The order of an [int] and a [float] is the exact one; nan is not
    ordered. *)
Definition compare_int_float (z : Z) (x : float) : option comparison :=
  match Prim2SF x with
  | S754_nan => None
  | S754_infinity s => Some (if s then Gt else Lt)
  | S754_zero _ => Some (z ?= 0)
  | S754_finite s m e =>
    let m' := if s then Z.neg m else Z.pos m in
    Some match e with
         | Z.neg p => (z * 2 ^ Z.pos p ?= m')
         | _ => (z ?= m' * 2 ^ e)
         end
  end.

(** [a < b] and [a > b] *)
Definition py_lt (a b : number) : bool :=
  match a, b with
  | PyInt x, PyInt y => x <? y
  | PyFloat x, PyFloat y => (x <? y)%float
  | PyInt x, PyFloat y =>
    match compare_int_float x y with Some Lt => true | _ => false end
  | PyFloat x, PyInt y =>
    match compare_int_float y x with Some Gt => true | _ => false end
  end.

Definition py_gt (a b : number) : bool := py_lt b a.

(** Truthiness: [if a]. *)
Definition py_bool (a : number) : bool :=
  match a with
  | PyInt z => negb (z =? 0)
  | PyFloat x => negb (x =? 0)%float
  end.

(** [round(x, 2)] on a float: the decimal with two places nearest to the
    exact value of [x], ties to the even last digit, read back as the
    nearest float.  Zeros, infinities and nan are returned as they are,
    and the sign is kept. *)
Definition float_round2 (x : float) : float :=
  match Prim2SF x with
  | S754_finite s m e =>
    let k := round_half_even (SF2Q (S754_finite false m e) * 100) in
    let r := SF2Prim (SFdiv prec emax (Z2SF k) (Z2SF 100)) in
    if s then (- r)%float else r
  | _ => x
  end.

(** [round(a, 2)]: an [int] is returned as it is. *)
Definition py_round2 (a : number) : number :=
  match a with
  | PyInt z => PyInt z
  | PyFloat x => PyFloat (float_round2 x)
  end.

(** [sum(values)] as CPython computes it up to version 3.11: the
    additions run left to right, from the [int] 0.  Later versions add
    the floats with a compensation term; on [int]s alone, and on one or
    two numbers, the result is the same. *)
Fixpoint sum_from (start : number) (values : list number) : outcome number :=
  match values with
  | [] => Return start
  | x :: rest => bind (py_add start x) (λ acc, sum_from acc rest)
  end.

Definition sum_left_to_right (values : list number) : outcome number :=
  sum_from (PyInt 0) values.

(** *** The data *)

Record MetricItem : Type := mkItem {
  postId : option string;
  usernameTiktokAccount : option string;
  datePosted : option string;
  views : option Z;
  likes : option Z;
  totalInteractions : option Z;
  engagement : option number
}.

Record MetricsData : Type := mkMetrics {
  m_items : option (list MetricItem);
  m_count : option Z;
  m_dashboard : option (list json)
}.

Record ConsolidatedResponse : Type := mkConsolidated {
  users : list UserData;
  scraped_accounts : list ScrapedAccountData;
  metrics : MetricsData;
  dashboard_data : list json;
  metadata : ConsolidatedMetadata
}.

(** [consolidated.get("metrics", {}).get("items", [])] *)
Definition items_of (consolidated : ConsolidatedResponse) : list MetricItem :=
  default [] (m_items (metrics consolidated)).

Record SummaryStats : Type := mkSummaryStats {
  ss_total_users : nat;
  ss_total_accounts : nat;
  average_engagement : number;
  total_views : Z;
  total_likes : Z;
  total_interactions : Z
}.

Record Trends : Type := mkTrends {
  growth_rate : number;
  engagement_trend : string
}.

Definition date_key (x : MetricItem) : string := default "" (datePosted x).
Definition engagement_or_0 (i : MetricItem) : number := default (PyInt 0) (engagement i).

(** Truthiness of [item.get("engagement")]: a missing field is [None]. *)
Definition truthy_num (x : option number) : bool :=
  match x with
  | Some a => py_bool a
  | None => false
  end.

(** *** The two computations *)

(** The builtin [sum] is an argument: every statement below holds for
    each way an interpreter adds floats up. *)
Section engine.
Variable sum : list number → outcome number.

Definition _calculate_summary_stats (consolidated : ConsolidatedResponse)
    : outcome SummaryStats :=
  let items := items_of consolidated in
  let total_views := sum_Z ((λ item, default 0 (views item)) <$> items) in
  let total_likes := sum_Z ((λ item, default 0 (likes item)) <$> items) in
  let total_interactions :=
    sum_Z ((λ item, default 0 (totalInteractions item)) <$> items) in
  let engagement_values :=
    engagement_or_0 <$> filter (λ item, truthy_num (engagement item) = true) items in
  bind (if truthy_list engagement_values
        then bind (sum engagement_values) (λ s,
               py_truediv s (PyInt (Z.of_nat (length engagement_values))))
        else Return (PyFloat 0)) (λ avg_engagement,
  Return {| ss_total_users := total_users (metadata consolidated);
            ss_total_accounts := total_accounts (metadata consolidated);
            average_engagement := py_round2 avg_engagement;
            total_views := total_views;
            total_likes := total_likes;
            total_interactions := total_interactions |}).

(** [sum(i.get("engagement", 0) for i in half) / n if n > 0 else 0] *)
Definition half_mean (half : list MetricItem) (n : nat) : outcome number :=
  if (0 <? n)%nat
  then bind (sum (engagement_or_0 <$> half)) (λ s, py_truediv s (PyInt (Z.of_nat n)))
  else Return (PyInt 0).

Definition _calculate_trends (consolidated : ConsolidatedResponse) : outcome Trends :=
  let items := items_of consolidated in
  if (2 <=? length items)%nat then
    let sorted_items := sorted date_key String.leb items in
    let mid := (length sorted_items / 2)%nat in
    bind (half_mean (take mid sorted_items) mid) (λ first_half_eng,
    bind (half_mean (drop mid sorted_items) (length sorted_items - mid))
      (λ second_half_eng,
    bind (bind (py_mul first_half_eng (PyFloat 1.1)) (λ upper,
            if py_gt second_half_eng upper then Return "increasing"
            else bind (py_mul first_half_eng (PyFloat 0.9)) (λ lower,
                   Return (if py_lt second_half_eng lower then "decreasing"
                           else "stable")))) (λ engagement_trend,
    bind (if py_gt first_half_eng (PyInt 0)
          then bind (py_sub second_half_eng first_half_eng) (λ difference,
               bind (py_truediv difference first_half_eng) (λ ratio,
               py_mul ratio (PyInt 100)))
          else Return (PyFloat 0)) (λ growth_rate,
    Return {| growth_rate := py_round2 growth_rate;
              engagement_trend := engagement_trend |}))))
  else
    Return {| growth_rate := py_round2 (PyFloat 0);
              engagement_trend := "insufficient_data" |}.

End engine.

(** *** Specification-side definitions and test inputs *)

(** The sum of a field over a list, by recursion on the list. *)
Fixpoint total (f : MetricItem → Z) (l : list MetricItem) : Z :=
  match l with
  | [] => 0
  | x :: l' => f x + total f l'
  end.

(** The items that count for the average: engagement present and
    truthy. *)
Definition engaged (items : list MetricItem) : list MetricItem :=
  filter (λ item, truthy_num (engagement item) = true) items.

Definition date_le (x y : MetricItem) : Prop :=
  String.leb (date_key x) (date_key y) = true.

(** The two half means of a list of at least 2 items. *)
Definition first_half_mean (sum : list number → outcome number)
    (items : list MetricItem) : outcome number :=
  let sorted_items := sorted date_key String.leb items in
  let mid := (length items / 2)%nat in
  bind (sum (engagement_or_0 <$> take mid sorted_items)) (λ s,
    py_truediv s (PyInt (Z.of_nat mid))).

Definition second_half_mean (sum : list number → outcome number)
    (items : list MetricItem) : outcome number :=
  let sorted_items := sorted date_key String.leb items in
  let mid := (length items / 2)%nat in
  bind (sum (engagement_or_0 <$> drop mid sorted_items)) (λ s,
    py_truediv s (PyInt (Z.of_nat (length items - mid)))).

(** The mean of the engagements that count. *)
Definition engaged_mean (sum : list number → outcome number)
    (items : list MetricItem) : outcome number :=
  bind (sum (engagement_or_0 <$> engaged items)) (λ s,
    py_truediv s (PyInt (Z.of_nat (length (engaged items))))).

(** Items whose engagement, when present, is an [int], and the exact sum
    of these engagements. *)
Definition int_engagement (item : MetricItem) : Prop :=
  ∃ z, engagement_or_0 item = PyInt z.

Definition int_of (a : number) : Z :=
  match a with
  | PyInt z => z
  | PyFloat _ => 0
  end.

Definition int_total (l : list MetricItem) : Z :=
  total (λ item, int_of (engagement_or_0 item)) l.

(** The label and the growth rate for two half means that are floats. *)
Definition trend_of (first second : float) : Trends :=
  {| growth_rate :=
       PyFloat (if (0 <? first)%float
                then float_round2 ((second - first) / first * 100)%float
                else 0%float);
     engagement_trend :=
       if (first * 1.1 <? second)%float then "increasing"
       else if (second <? first * 0.9)%float then "decreasing"
       else "stable" |}.

Definition post (date : string) (e : number) : MetricItem :=
  mkItem None None (Some date) None None None (Some e).

Definition with_items (items : list MetricItem) : ConsolidatedResponse :=
  {| users := []; scraped_accounts := [];
     metrics := mkMetrics (Some items) (Some (Z.of_nat (length items))) (Some []);
     dashboard_data := [];
     metadata := {| total_users := 0; total_accounts := 0;
                    total_posts_analyzed := Z.of_nat (length items);
                    timestamp := ""; services_status := ∅ |} |}.

(** The summary of a snapshot with a given average engagement. *)
Definition summary_with (consolidated : ConsolidatedResponse) (average : number)
    : SummaryStats :=
  {| ss_total_users := total_users (metadata consolidated);
     ss_total_accounts := total_accounts (metadata consolidated);
     average_engagement := average;
     total_views := total (λ item, default 0 (views item)) (items_of consolidated);
     total_likes := total (λ item, default 0 (likes item)) (items_of consolidated);
     total_interactions :=
       total (λ item, default 0 (totalInteractions item)) (items_of consolidated) |}.

(** The trend rule as the specification words it: equal halves are
    "stable", and the growth rate is the rounded quotient unless the
    first-half mean is 0. *)
Definition claimed_trend_rule (consolidated : ConsolidatedResponse) : Prop :=
  ∃ (first second : float) trends,
    first_half_mean sum_left_to_right (items_of consolidated) = Return (PyFloat first) ∧
    second_half_mean sum_left_to_right (items_of consolidated) = Return (PyFloat second) ∧
    _calculate_trends sum_left_to_right consolidated = Return trends ∧
    (first = second → engagement_trend trends = "stable") ∧
    growth_rate trends =
      PyFloat (if (first =? 0)%float then 0%float
               else float_round2 ((second - first) / first * 100)%float).

(** The summary as the specification words it: every list of items has
    one, with 0.0 or the rounded mean as average. *)
Definition claimed_summary (consolidated : ConsolidatedResponse) : Prop :=
  ∃ summary,
    _calculate_summary_stats sum_left_to_right consolidated = Return summary ∧
    (engaged (items_of consolidated) = [] → average_engagement summary = PyFloat 0) ∧
    (∀ x, engaged_mean sum_left_to_right (items_of consolidated) = Return (PyFloat x) →
          average_engagement summary = PyFloat (float_round2 x)).

(** Two posts, the later one with an engagement 15% above the earlier. *)
Definition two_posts : ConsolidatedResponse :=
  with_items [post "2024-01-02" (PyInt 23); post "2024-01-01" (PyInt 20)].

(** Two posts of the same engagement. *)
Definition equal_posts : ConsolidatedResponse :=
  with_items [post "2024-01-01" (PyInt 5); post "2024-01-02" (PyInt 5)].

(** Two posts whose engagements differ by one part in 20000. *)
Definition close_posts : ConsolidatedResponse :=
  with_items [post "2024-01-01" (PyInt 20000); post "2024-01-02" (PyInt 20001)].

(** Two posts of the same negative engagement. *)
Definition equal_negative_halves : ConsolidatedResponse :=
  with_items [post "2024-01-01" (PyInt (-10)); post "2024-01-02" (PyInt (-10))].

(** A negative engagement that falls further. *)
Definition falling_negative_halves : ConsolidatedResponse :=
  with_items [post "2024-01-01" (PyInt (-10)); post "2024-01-02" (PyInt (-20))].

(** 37 posts of engagement 1 and 3 posts of engagement 2: the mean 43/40
    is not a float, and the nearest float is below 1.075. *)
Definition forty_posts : ConsolidatedResponse :=
  let item e := mkItem None None None (Some 10) (Some 2) None (Some (PyInt e)) in
  with_items (replicate 37 (item 1) ++ replicate 3 (item 2)).

(** One post whose engagement is an [int] beyond the floats. *)
Definition huge_engagement : ConsolidatedResponse :=
  with_items [post "2024-01-01" (PyInt (10 ^ 400))].

End binary64.

(** ** Specification-side definitions and test inputs *)

(** [x] may stand before [y] in a list sorted by [key] under [le]. *)
Definition key_le {A K} (key : A → K) (le : K → K → bool) (x y : A) : Prop :=
  le (key x) (key y) = true.

(** The endpoint of the retry scenario: two failed attempts, then a
    success. *)
Definition fails_twice_then {A} (e1 e2 : exn) (payload : A) : endpoint A :=
  λ attempt,
    match attempt with
    | 0%nat => Raise e1
    | 1%nat => Raise e2
    | _ => Return payload
    end.

(** The snapshot assembled from four branch results. *)
Definition snapshot_of (now : string) (us : list UserData)
    (accs : list ScrapedAccountData) (ms : MetricsData) (dash : list json)
    : ConsolidatedResponse :=
  {| users := us; scraped_accounts := accs; metrics := ms; dashboard_data := dash;
     metadata := _build_metadata now us accs ms dash |}.

(** A test double: the metrics client raises, the other three answer. *)
Definition metrics_down : Clients :=
  {| ms1_get_all_users := Return [mkUser (Some 1) (Some "a@x") None None];
     ms1_get_user_profile := λ _, Return None;
     ms2_get_all_scraped_accounts := Return [mkAccount (Some "acc") None (Some 1)];
     ms2_get_scraped_accounts_by_user := λ _, Return [];
     ms3_query_user_metrics := λ _, Raise (OtherError "connection refused");
     ms4_get_dashboard_info := Return [JObj []] |}.

(** [metadata.timestamp] replaced. *)
Definition with_timestamp (t : string) (s : ConsolidatedResponse) : ConsolidatedResponse :=
  {| users := users s; scraped_accounts := scraped_accounts s;
     metrics := metrics s; dashboard_data := dashboard_data s;
     metadata :=
       {| total_users := total_users (metadata s);
          total_accounts := total_accounts (metadata s);
          total_posts_analyzed := total_posts_analyzed (metadata s);
          timestamp := t;
          services_status := services_status (metadata s) |} |}.

(** The status reported for one probe, given whether its deadline elapsed.
    A TimeoutError is how an elapsed deadline reaches the prober, so a
    probe that raises one itself is reported the same way. *)
Definition reported_status {A} (deadline_elapsed : bool) (probe : outcome A) : string :=
  if deadline_elapsed then "timeout"
  else match probe with
       | Return _ => "healthy"
       | Raise TimeoutError => "timeout"
       | Raise e => "unhealthy: " +:+ take_chars 50 (str e)
       end.

(** The status as the specification words it: "timeout" stands for an
    elapsed deadline only, and every failure of the probe itself is
    "unhealthy". *)
Definition claimed_status {A} (deadline_elapsed : bool) (probe : outcome A) : string :=
  if deadline_elapsed then "timeout"
  else match probe with
       | Return _ => "healthy"
       | Raise e => "unhealthy: " +:+ take_chars 50 (str e)
       end.

(** No deadline elapses. *)
Definition in_time : Schedule :=
  {| probe_pending_after := λ _ _, false;
     gather_pending_after := λ _, false |}.

(** The status map of a prober run whose overall deadline did not elapse. *)
Definition probed (cl : Clients) (sched : Schedule) : gmap string string :=
  {[ "microservice1" :=
       reported_status (probe_pending_after sched "microservice1" 2.0) (ms1_get_all_users cl);
     "microservice2" :=
       reported_status (probe_pending_after sched "microservice2" 2.0)
         (ms2_get_all_scraped_accounts cl);
     "microservice3" :=
       reported_status (probe_pending_after sched "microservice3" 2.0)
         (ms3_query_user_metrics cl None);
     "microservice4" :=
       reported_status (probe_pending_after sched "microservice4" 2.0)
         (ms4_get_dashboard_info cl) ]}.

Definition all_timeout : gmap string string :=
  {[ "microservice1" := "timeout"; "microservice2" := "timeout";
     "microservice3" := "timeout"; "microservice4" := "timeout" ]}.

(** With the HTTP clients a probe never raises, so a service is "healthy"
    or "timeout". *)
Definition http_probed (sched : Schedule) : gmap string string :=
  {[ "microservice1" :=
       if probe_pending_after sched "microservice1" 2.0 then "timeout" else "healthy";
     "microservice2" :=
       if probe_pending_after sched "microservice2" 2.0 then "timeout" else "healthy";
     "microservice3" :=
       if probe_pending_after sched "microservice3" 2.0 then "timeout" else "healthy";
     "microservice4" :=
       if probe_pending_after sched "microservice4" 2.0 then "timeout" else "healthy" ]}.

Definition date_le (x y : MetricItem) : Prop :=
  String.leb (date_key x) (date_key y) = true.

Definition two_posts : ConsolidatedResponse :=
  snapshot_of "2024-01-03T00:00:00" [] []
    (mkMetrics
       (Some [ mkItem (Some "p2") (Some "acc") (Some "2024-01-02") None None None (Some 23%Q);
               mkItem (Some "p1") (Some "acc") (Some "2024-01-01") None None None (Some 20%Q) ])
       (Some 2) None) [].

Definition post (date : string) (e : Q) : MetricItem :=
  mkItem None None (Some date) None None None (Some e).

Definition with_items (items : list MetricItem) : ConsolidatedResponse :=
  snapshot_of "" [] []
    (mkMetrics (Some items) (Some (Z.of_nat (length items))) (Some [])) [].

(** [d.get(k)] *)
Fixpoint dict_get {K V} `{EqDecision K} (k : K) (d : list (K * V)) : option V :=
  match d with
  | [] => None
  | (k', v) :: d' => if decide (k' = k) then Some v else dict_get k d'
  end.

(** The user an account is counted for: its [userId], or else its
    [user_id]; an id that is missing or 0 is no id. *)
Definition owner (account : ScrapedAccountData) : option Z :=
  let user_id := or_int (a_userId account) (a_user_id account) in
  if truthy_int user_id then user_id else None.

(** The number of accounts counted for a user. *)
Definition owned (user_id : Z) (accs : list ScrapedAccountData) : Z :=
  Z.of_nat (length (filter (λ account, owner account = Some user_id) accs)).

(** The probe of microservice2 runs past its deadline; the gather settles
    in time. *)
Definition slow_accounts : Schedule :=
  {| probe_pending_after := λ name _, String.eqb name "microservice2";
     gather_pending_after := λ _, false |}.

(** ** The remaining client operations *)

(** The two endpoints of [ENDPOINTS] the coordinator does not use. *)
Record UpstreamMore : Type := mkUpstreamMore {
  ep_questions : gmap string string → endpoint (list json);
  ep_dbquery_admin : gmap string json → endpoint MetricsData
}.

Definition get_all_questions (self : BaseClient) (up : UpstreamMore)
    (token : option string) : list json :=
  list_or_empty (_make_request self (ep_questions up (auth_headers token))).1.

(** The body of the admin query: [adminId] only for a truthy [admin_id],
    then the filters on top. *)
Definition admin_payload (admin_id : option Z)
    (filters : option (gmap string json)) : gmap string json :=
  let payload : gmap string json :=
    match admin_id with
    | Some id => if truthy_int admin_id then {[ "adminId" := JNum (inject_Z id) ]} else ∅
    | None => ∅
    end in
  match filters with
  | Some f => if decide (f = ∅) then payload else f ∪ payload
  | None => payload
  end.

Definition query_admin_metrics (self : BaseClient) (up : UpstreamMore)
    (admin_id : option Z) (filters : option (gmap string json)) : MetricsData :=
  match (_make_request self (ep_dbquery_admin up (admin_payload admin_id filters))).1 with
  | Some r => if truthy_metrics r then r else metrics_default
  | None => metrics_default
  end.

(** ** Further specification-side definitions *)

(** The sleeps of the executor, read off the events. *)
Definition sleeps_made (evs : list event) : list Q :=
  omap (λ ev, match ev with EvSleep d => Some d | _ => None end) evs.

(** The log entry of a failed attempt that is retried, and the entries of
    one that is the last. *)
Definition retry_log (e : exn) : event :=
  match e with
  | HTTPStatusError _ _ => EvWarning
  | _ => EvError
  end.

Definition final_log (e : exn) : list event :=
  match e with
  | HTTPStatusError _ _ => [EvWarning; EvError]
  | _ => [EvError]
  end.

(** Every attempt the executor may make at this endpoint fails. *)
Definition all_fail {A} (self : BaseClient) (ep : endpoint A) : Prop :=
  ∀ k, (k < Z.to_nat (max_retries self))%nat → raises (ep k).

(** Attempt [k] is the first to succeed, with this payload. *)
Definition first_success {A} (self : BaseClient) (ep : endpoint A)
    (k : nat) (payload : A) : Prop :=
  (k < Z.to_nat (max_retries self))%nat ∧ ep k = Return payload ∧
  ∀ j, (j < k)%nat → raises (ep j).

(** Two endpoints that agree on the attempts the executor may make. *)
Definition same_attempts {A} (self : BaseClient) (ep ep' : endpoint A) : Prop :=
  ∀ k, (k < Z.to_nat (max_retries self))%nat → ep k = ep' k.

(** An endpoint that refuses every connection. *)
Definition refused {A} : endpoint A := λ _, Raise (OtherError "connection refused").

Definition upstream_down : Upstream :=
  {| ep_users := λ _, refused;
     ep_profile := λ _ _, refused;
     ep_scraped_accounts := λ _, refused;
     ep_scraped_accounts_by_user := λ _ _, refused;
     ep_dbquery_user := λ _, refused;
     ep_dashboard := refused |}.

(** An endpoint that answers at once. *)
Definition answers {A} (payload : A) : endpoint A := λ _, Return payload.


(** The metrics service answers [{}] at the third attempt. *)
Definition empty_reply_upstream : Upstream :=
  {| ep_users := λ _, fails_twice_then TimeoutError TimeoutError
                        [mkUser (Some 1) None None None];
     ep_profile := λ _ _, refused;
     ep_scraped_accounts := λ _, refused;
     ep_scraped_accounts_by_user := λ _ _, refused;
     ep_dbquery_user := λ _, fails_twice_then TimeoutError TimeoutError
                               (mkMetrics None None None);
     ep_dashboard := refused |}.

(** Two upstreams that differ in the lists of all users and accounts, and
    after the third attempt. *)
Definition one_user_upstream : Upstream :=
  {| ep_users := λ _, answers [mkUser (Some 1) None None None];
     ep_profile := λ _ _, answers (mkUser (Some 7) (Some "g@x") None None);
     ep_scraped_accounts := λ _, answers [mkAccount None None (Some 1)];
     ep_scraped_accounts_by_user := λ _ _, answers [];
     ep_dbquery_user := λ _, refused;
     ep_dashboard := refused |}.

Definition other_lists_upstream : Upstream :=
  {| ep_users := λ _, refused;
     ep_profile := λ _ _, answers (mkUser (Some 7) (Some "g@x") None None);
     ep_scraped_accounts := λ _, answers [];
     ep_scraped_accounts_by_user := λ _ _, answers [];
     ep_dbquery_user := λ _ k, if (k <? 3)%nat then refused k else Return metrics_default;
     ep_dashboard := refused |}.

(** The three shapes of a status. *)
Definition status_shape (status : string) : Prop :=
  status = "healthy" ∨ status = "timeout" ∨
  ∃ e, status = "unhealthy: " +:+ take_chars 50 (str e) ∧
       (char_length (take_chars 50 (str e)) ≤ 50)%nat.

(** An error text of accented letters, two bytes each. *)
Definition accents (n : nat) : string := String.concat "" (replicate n "é").
Definition accents_60 : string := accents 60.
Definition accents_50 : string := accents 50.



(** Clients whose every call raises. *)
Definition all_raise : Clients :=
  {| ms1_get_all_users := Raise (OtherError "down");
     ms1_get_user_profile := λ _, Raise (OtherError "down");
     ms2_get_all_scraped_accounts := Raise (OtherError "down");
     ms2_get_scraped_accounts_by_user := λ _, Raise (OtherError "down");
     ms3_query_user_metrics := λ _, Raise TimeoutError;
     ms4_get_dashboard_info := Raise (HTTPStatusError 503 "Service Unavailable") |}.

(** * Properties *)

(** ** Properties of the metadata *)

Lemma ok_if_truthy_list {A} (l : list A) :
  ok_if (truthy_list l) = if decide (l = []) then "no_data" else "ok".
Proof. by destruct l. Qed.

Lemma ok_if_count (c : Z) :
  ok_if (0 <? c) = if decide (0 < c) then "ok" else "no_data".
Proof.
  destruct (Z.ltb_spec 0 c); case_decide; simpl; done || lia.
Qed.

Lemma build_metadata_status now us accs ms dash :
  let st := services_status (_build_metadata now us accs ms dash) in
  st !! "microservice1" = Some (ok_if (truthy_list us)) ∧
  st !! "microservice2" = Some (ok_if (truthy_list accs)) ∧
  st !! "microservice3" = Some (ok_if (0 <? default 0 (m_count ms))) ∧
  st !! "microservice4" = Some (ok_if (truthy_list dash)).
Proof.
  simpl. repeat split; by simplify_map_eq.
Qed.

(** C2. The metadata built from four branch results counts the users and
    the accounts, takes the number of analysed posts from the [count] key
    of the metrics (0 when the key is missing), and reports each of
    microservice1, 2 and 4 as "ok" exactly when its list is non-empty and
    microservice3 as "ok" exactly when the count is positive, "no_data"
    otherwise; these four are the only keys.  For two users, no account, a
    metrics bundle with count 0 and one dashboard entry this gives 2, 0, 0
    and ok, no_data, no_data, ok. *)
Theorem build_metadata_correct :
  (∀ now us accs ms dash,
     let md := _build_metadata now us accs ms dash in
     let st := services_status md in
     total_users md = length us ∧
     total_accounts md = length accs ∧
     total_posts_analyzed md =
       match m_count ms with Some c => c | None => 0 end ∧
     st !! "microservice1" = Some (if decide (us = []) then "no_data" else "ok") ∧
     st !! "microservice2" = Some (if decide (accs = []) then "no_data" else "ok") ∧
     st !! "microservice3" =
       Some (if decide (0 < total_posts_analyzed md) then "ok" else "no_data") ∧
     st !! "microservice4" = Some (if decide (dash = []) then "no_data" else "ok") ∧
     dom st = {["microservice1"; "microservice2"; "microservice3"; "microservice4"]}) ∧
  (∀ now u1 u2 d1,
     let md := _build_metadata now [u1; u2] []
                 (mkMetrics (Some []) (Some 0) None) [d1] in
     total_users md = 2%nat ∧ total_accounts md = 0%nat ∧
     total_posts_analyzed md = 0 ∧
     services_status md =
       {[ "microservice1" := "ok"; "microservice2" := "no_data";
          "microservice3" := "no_data"; "microservice4" := "ok" ]}).
Proof.
  split.
  - intros now us accs ms dash md st.
    destruct (build_metadata_status now us accs ms dash) as (H1 & H2 & H3 & H4).
    split; [done|]. split; [done|].
    split; [subst md; simpl; by destruct (m_count ms)|].
    rewrite <- !ok_if_truthy_list, <- ok_if_count.
    split; [exact H1|]. split; [exact H2|]. split; [exact H3|]. split; [exact H4|].
    subst st md. simpl. rewrite !dom_insert_L. set_solver.
  - intros now u1 u2 d1. cbn. by repeat split.
Qed.

(** ** Properties of the request executor *)

Lemma retry_condition (self : BaseClient) (a n' : nat) :
  (a + S n')%nat = Z.to_nat (max_retries self) →
  (Z.of_nat a <? max_retries self - 1) = negb (Nat.eqb n' 0).
Proof.
  intros Hinv.
  destruct (Z.ltb_spec (Z.of_nat a) (max_retries self - 1));
    destruct (Nat.eqb_spec n' 0); simpl; try done; lia.
Qed.

(** The loop either stops at the first attempt that succeeds, or makes
    every remaining attempt and gives up. *)
Lemma retry_loop_spec {A} (self : BaseClient) (ep : endpoint A) (n a : nat) :
  (a + n)%nat = Z.to_nat (max_retries self) →
  (∃ k p, (k < n)%nat ∧ ep (a + k)%nat = Return p ∧
          (∀ j, (j < k)%nat → raises (ep (a + j)%nat)) ∧
          (retry_loop self ep a n).1 = Some p ∧
          attempts_made (retry_loop self ep a n).2 = seq a (S k)) ∨
  ((∀ k, (k < n)%nat → raises (ep (a + k)%nat)) ∧
   (retry_loop self ep a n).1 = None ∧
   attempts_made (retry_loop self ep a n).2 = seq a n).
Proof.
  revert a. induction n as [|n' IH]; intros a Hinv.
  - right. simpl. split; [intros k Hk; lia | done].
  - assert (Hraise : ∀ e, ep a = Raise e →
      ∃ log1 log2,
        retry_loop self ep a (S n') =
          (if negb (Nat.eqb n' 0)
           then ((retry_loop self ep (S a) n').1,
                 EvRequest a :: log1 ++ (retry_loop self ep (S a) n').2)
           else (None, EvRequest a :: log2)) ∧
        attempts_made log1 = [] ∧ attempts_made log2 = []).
    { intros e He. simpl. rewrite He, (retry_condition self a n' Hinv).
      destruct e.
      - exists [EvError; EvSleep (retry_delay self)], [EvError].
        by destruct (negb (Nat.eqb n' 0)), (retry_loop self ep (S a) n').
      - exists [EvWarning; EvSleep (retry_delay self)], [EvWarning; EvError].
        by destruct (negb (Nat.eqb n' 0)), (retry_loop self ep (S a) n').
      - exists [EvError; EvSleep (retry_delay self)], [EvError].
        by destruct (negb (Nat.eqb n' 0)), (retry_loop self ep (S a) n'). }
    destruct (ep a) as [p|e] eqn:Hep.
    + left. exists 0%nat, p. rewrite Nat.add_0_r. simpl. rewrite Hep. simpl.
      repeat split; [lia | intros j Hj; lia].
    + destruct (Hraise e eq_refl) as (log1 & log2 & -> & Hl1 & Hl2).
      destruct (Nat.eqb_spec n' 0) as [-> | Hn']; simpl.
      * right. unfold attempts_made in *. simpl. rewrite Hl2.
        repeat split; try done.
        intros k Hk. assert (k = 0)%nat as -> by lia.
        rewrite Nat.add_0_r, Hep. done.
      * destruct (IH (S a)) as [(k & p & Hk & Hp & Hfail & Hr & Hat) | (Hfail & Hr & Hat)];
          [lia | |].
        -- left. exists (S k), p. rewrite <- Nat.add_succ_comm.
           split; [lia|]. split; [done|]. split.
           { intros [|j] Hj.
             - rewrite Nat.add_0_r, Hep. done.
             - rewrite <- Nat.add_succ_comm. apply Hfail. lia. }
           split; [done|].
           unfold attempts_made in *. simpl. rewrite omap_app, Hl1, Hat. done.
        -- right. split.
           { intros [|j] Hj.
             - rewrite Nat.add_0_r, Hep. done.
             - rewrite <- Nat.add_succ_comm. apply Hfail. lia. }
           split; [done|].
           unfold attempts_made in *. simpl. rewrite omap_app, Hl1, Hat. done.
Qed.

(** C3. Whatever the attempts do, the executor makes at most [max_retries]
    of them.  Either some attempt [k] is the first to succeed: the result
    is that attempt's parsed payload, and attempts 0..k are the only ones
    made.  Or all [max_retries] attempts fail (error status, transport or
    parsing failure): the result is None, not an exception.  With
    [max_retries = 3] and two failures followed by a success, the
    successful payload is returned after exactly three attempts. *)
Theorem make_request_retries :
  (∀ A (self : BaseClient) (ep : endpoint A),
     let limit := Z.to_nat (max_retries self) in
     let result := (_make_request self ep).1 in
     let made := attempts_made (_make_request self ep).2 in
     (length made ≤ limit)%nat ∧
     ((∃ k payload,
         (k < limit)%nat ∧ ep k = Return payload ∧
         (∀ j, (j < k)%nat → raises (ep j)) ∧
         result = Some payload ∧ made = seq 0 (S k)) ∨
      ((∀ k, (k < limit)%nat → raises (ep k)) ∧
       result = None ∧ made = seq 0 limit))) ∧
  (∀ A tmo delay e1 e2 (payload : A),
     let run := _make_request (mkBaseClient tmo 3 delay)
                  (fails_twice_then e1 e2 payload) in
     run.1 = Some payload ∧ attempts_made run.2 = [0; 1; 2]%nat).
Proof.
  split.
  - intros A self ep limit result made.
    destruct (retry_loop_spec self ep limit 0 eq_refl)
      as [(k & p & Hk & Hp & Hfail & Hr & Hat) | (Hfail & Hr & Hat)].
    + split.
      * subst made. unfold _make_request. fold limit. rewrite Hat, length_seq. lia.
      * left. exists k, p. done.
    + split.
      * subst made. unfold _make_request. fold limit. rewrite Hat, length_seq. lia.
      * right. done.
  - intros A tmo delay e1 e2 payload run. subst run.
    unfold _make_request. simpl. destruct e1, e2; done.
Qed.

(** ** Properties of the coordinator *)

(** A branch never raises: it returns what its call returned, or its
    default. *)
Lemma try_except_returns {A} (body : outcome A) (handler : exn → A) :
  try_except body handler =
    Return match body with Return a => a | Raise e => handler e end.
Proof. by destruct body. Qed.

Lemma get_consolidated_data_snapshot cl now user_id :
  get_consolidated_data cl now user_id =
    Return (snapshot_of now
      (result_or (users_call cl user_id) [])
      (result_or (accounts_call cl user_id) [])
      (result_or (metrics_call cl user_id) metrics_default)
      (result_or (dashboard_call cl) [])).
Proof.
  unfold get_consolidated_data, _get_users_data, _get_scraped_accounts_data,
    _get_metrics_data, _get_dashboard_data.
  rewrite !try_except_returns.
  by destruct (users_call cl user_id), (accounts_call cl user_id),
    (metrics_call cl user_id), (dashboard_call cl).
Qed.

(** C1. When exactly one of the four branch calls raises, the coordinator
    still returns a snapshot: the slot of the failing branch holds its
    typed default (the empty list for users, accounts and dashboard, and
    [{items: [], count: 0, dashboard: []}] for metrics) and the other three
    slots hold what their calls returned. *)
Theorem partial_failure_isolation (cl : Clients) (now : string) (user_id : option Z)
    (e : exn) (vu : list UserData) (va : list ScrapedAccountData)
    (vm : MetricsData) (vd : list json) :
  (users_call cl user_id = Raise e ∧ accounts_call cl user_id = Return va ∧
   metrics_call cl user_id = Return vm ∧ dashboard_call cl = Return vd →
   get_consolidated_data cl now user_id = Return (snapshot_of now [] va vm vd)) ∧
  (users_call cl user_id = Return vu ∧ accounts_call cl user_id = Raise e ∧
   metrics_call cl user_id = Return vm ∧ dashboard_call cl = Return vd →
   get_consolidated_data cl now user_id = Return (snapshot_of now vu [] vm vd)) ∧
  (users_call cl user_id = Return vu ∧ accounts_call cl user_id = Return va ∧
   metrics_call cl user_id = Raise e ∧ dashboard_call cl = Return vd →
   get_consolidated_data cl now user_id =
     Return (snapshot_of now vu va (mkMetrics (Some []) (Some 0) (Some [])) vd)) ∧
  (users_call cl user_id = Return vu ∧ accounts_call cl user_id = Return va ∧
   metrics_call cl user_id = Return vm ∧ dashboard_call cl = Raise e →
   get_consolidated_data cl now user_id = Return (snapshot_of now vu va vm [])).
Proof.
  rewrite get_consolidated_data_snapshot.
  repeat split; intros (-> & -> & -> & ->); done.
Qed.

Lemma partial_failure_isolation_witness :
  get_consolidated_data metrics_down "t0" None =
    Return (snapshot_of "t0"
      [mkUser (Some 1) (Some "a@x") None None]
      [mkAccount (Some "acc") None (Some 1)]
      (mkMetrics (Some []) (Some 0) (Some []))
      [JObj []]).
Proof.
  apply (partial_failure_isolation metrics_down "t0" None
           (OtherError "connection refused")
           [mkUser (Some 1) (Some "a@x") None None]
           [mkAccount (Some "acc") None (Some 1)]
           empty_dict [JObj []]).
  repeat split; reflexivity.
Defined.

(** C8. With the client calls answering the same both times, two calls
    with the same user id, made at different times, return snapshots that
    agree on the users, the scraped accounts, the metrics, the dashboard
    data and every metadata field but the timestamp. *)
Theorem consolidated_idempotent (cl : Clients) (user_id : option Z)
    (now1 now2 : string) :
  ∃ s1 s2,
    get_consolidated_data cl now1 user_id = Return s1 ∧
    get_consolidated_data cl now2 user_id = Return s2 ∧
    users s1 = users s2 ∧
    scraped_accounts s1 = scraped_accounts s2 ∧
    metrics s1 = metrics s2 ∧
    dashboard_data s1 = dashboard_data s2 ∧
    total_users (metadata s1) = total_users (metadata s2) ∧
    total_accounts (metadata s1) = total_accounts (metadata s2) ∧
    total_posts_analyzed (metadata s1) = total_posts_analyzed (metadata s2) ∧
    services_status (metadata s1) = services_status (metadata s2) ∧
    timestamp (metadata s1) = now1 ∧ timestamp (metadata s2) = now2 ∧
    s2 = with_timestamp now2 s1.
Proof.
  rewrite !get_consolidated_data_snapshot.
  eexists _, _. split; [reflexivity|]. split; [reflexivity|].
  repeat split.
Qed.

(** ** User id 0 *)

Lemma metrics_payload_zero filters :
  metrics_payload (Some 0) filters = metrics_payload None filters.
Proof. reflexivity. Qed.

(** C9. A call with user id 0 behaves like a call without user id: the
    users branch lists all users and the accounts branch lists all scraped
    accounts (for any clients), the body of the metrics query carries no
    [userId], and with the HTTP clients the whole snapshot is the one of
    the call without user id. *)
Theorem user_id_zero_is_absent :
  (∀ cl, users_call cl (Some 0) = ms1_get_all_users cl ∧
         accounts_call cl (Some 0) = ms2_get_all_scraped_accounts cl) ∧
  metrics_payload (Some 0) None = ∅ ∧
  (∀ filters, metrics_payload (Some 0) filters = metrics_payload None filters) ∧
  (∀ cfg up, query_user_metrics cfg up (Some 0) None = query_user_metrics cfg up None None) ∧
  (∀ cfg up now,
     get_consolidated_data (http_clients cfg up) now (Some 0) =
     get_consolidated_data (http_clients cfg up) now None).
Proof.
  repeat split.
Qed.

(** ** Properties of the health prober *)

Lemma check_service_health_returns {A} sched name (probe : outcome A) :
  _check_service_health sched name probe =
    Return (name, reported_status (probe_pending_after sched name 2.0) probe).
Proof.
  unfold _check_service_health, wait_for, reported_status.
  destruct (probe_pending_after sched name 2.0); [done|].
  destruct probe as [v|[]]; done.
Qed.

Lemma check_services_health_cases cl sched :
  check_services_health cl sched =
    Return (if gather_pending_after sched 5.0 then all_timeout else probed cl sched).
Proof.
  unfold check_services_health, wait_for.
  destruct (gather_pending_after sched 5.0); [done|].
  by rewrite !check_service_health_returns.
Qed.

(** C7, as stated, fails: a probe that raises a timeout error of its own,
    while no deadline elapses, is reported "timeout", where the
    specification has "unhealthy: " with the text of the error. *)
Lemma claimed_status_counterexample :
  probe_pending_after in_time "microservice3" 2.0 = false ∧
  gather_pending_after in_time 5.0 = false ∧
  ms3_query_user_metrics all_raise None = Raise TimeoutError ∧
  _check_service_health in_time "microservice3" (ms3_query_user_metrics all_raise None) =
    Return ("microservice3", "timeout") ∧
  claimed_status (probe_pending_after in_time "microservice3" 2.0)
    (ms3_query_user_metrics all_raise None) = "unhealthy: " ∧
  (∃ health, check_services_health all_raise in_time = Return health ∧
             health !! "microservice3" = Some "timeout") ∧
  ¬ (∀ (sched : Schedule) (name : string) (probe : outcome MetricsData),
       _check_service_health sched name probe =
         Return (name, claimed_status (probe_pending_after sched name 2.0) probe)).
Proof.
  split; [reflexivity|]. split; [reflexivity|]. split; [reflexivity|].
  split; [reflexivity|]. split; [reflexivity|].
  split; [eexists; split; reflexivity|].
  intros Hclaim.
  specialize (Hclaim in_time "microservice3" (ms3_query_user_metrics all_raise None)).
  discriminate Hclaim.
Qed.

(** C7, amended. One probe is reported "healthy" if it returns before its
    2-unit deadline, "timeout" if the deadline elapses or if the probe
    itself raises a timeout error, and "unhealthy: " with the first 50
    characters of the error if it fails with any other error.  When the
    overall 5-unit deadline does not elapse, the status of each of the four
    services is the report of its own probe alone, whatever the other three
    do; when it elapses, all four services are reported "timeout".  The
    probes of the HTTP clients never raise: there every service is
    "healthy" or "timeout". *)
Theorem health_status_report :
  (∀ (sched : Schedule) A name (probe : outcome A),
     (∀ v, probe_pending_after sched name 2.0 = false → probe = Return v →
           _check_service_health sched name probe = Return (name, "healthy")) ∧
     (probe_pending_after sched name 2.0 = true →
      _check_service_health sched name probe = Return (name, "timeout")) ∧
     (probe = Raise TimeoutError →
      _check_service_health sched name probe = Return (name, "timeout")) ∧
     (∀ e, probe_pending_after sched name 2.0 = false → probe = Raise e →
           e ≠ TimeoutError →
           _check_service_health sched name probe =
             Return (name, "unhealthy: " +:+ take_chars 50 (str e)))) ∧
  (∀ (cl : Clients) (sched : Schedule),
     (gather_pending_after sched 5.0 = false →
      ∃ health,
        check_services_health cl sched = Return health ∧
        dom health = list_to_set service_names ∧
        _check_service_health sched "microservice1" (ms1_get_all_users cl) =
          Return ("microservice1", health !!! "microservice1") ∧
        _check_service_health sched "microservice2" (ms2_get_all_scraped_accounts cl) =
          Return ("microservice2", health !!! "microservice2") ∧
        _check_service_health sched "microservice3" (ms3_query_user_metrics cl None) =
          Return ("microservice3", health !!! "microservice3") ∧
        _check_service_health sched "microservice4" (ms4_get_dashboard_info cl) =
          Return ("microservice4", health !!! "microservice4")) ∧
     (gather_pending_after sched 5.0 = true →
      check_services_health cl sched =
        Return {[ "microservice1" := "timeout"; "microservice2" := "timeout";
                  "microservice3" := "timeout"; "microservice4" := "timeout" ]})) ∧
  (∀ cfg up (sched : Schedule),
     check_services_health (http_clients cfg up) sched =
       Return (if gather_pending_after sched 5.0 then all_timeout
               else http_probed sched)).
Proof.
  split; [|split].
  - intros sched A name probe. split; [|split; [|split]].
    + intros v Hp ->. by rewrite check_service_health_returns, Hp.
    + intros Hp. by rewrite check_service_health_returns, Hp.
    + intros ->. rewrite check_service_health_returns. unfold reported_status.
      by destruct (probe_pending_after sched name 2.0).
    + intros e Hp -> He. rewrite check_service_health_returns, Hp.
      by destruct e.
  - intros cl sched. split.
    + intros Hg. rewrite check_services_health_cases, Hg.
      eexists. split; [reflexivity|].
      rewrite !check_service_health_returns. unfold probed.
      split; [|by repeat split].
      rewrite !dom_insert_L. unfold service_names. simpl. set_solver.
    + intros Hg. by rewrite check_services_health_cases, Hg.
  - intros cfg up sched. rewrite check_services_health_cases.
    destruct (gather_pending_after sched 5.0); [done|].
    unfold probed, http_probed, reported_status. simpl.
    by destruct (probe_pending_after sched "microservice1" 2.0),
      (probe_pending_after sched "microservice2" 2.0),
      (probe_pending_after sched "microservice3" 2.0),
      (probe_pending_after sched "microservice4" 2.0).
Qed.

(** ** Properties of the stable sort *)

Section sorted_properties.
Context {A K : Type} (key : A → K) (le : K → K → bool).

Lemma insert_sorted_Permutation x l : insert_sorted key le x l ≡ₚ x :: l.
Proof.
  induction l as [|y l IH]; simpl; [done|].
  destruct (le (key x) (key y)); [done|].
  rewrite IH. apply Permutation_swap.
Qed.

Lemma sorted_Permutation l : sorted key le l ≡ₚ l.
Proof.
  induction l as [|x l IH]; simpl; [done|].
  by rewrite insert_sorted_Permutation, IH.
Qed.

Lemma sorted_length l : length (sorted key le l) = length l.
Proof. by rewrite sorted_Permutation. Qed.

Lemma sorted_elem_of x l : x ∈ sorted key le l ↔ x ∈ l.
Proof. by rewrite sorted_Permutation. Qed.

Hypothesis le_total : ∀ k1 k2, le k1 k2 = true ∨ le k2 k1 = true.

Lemma insert_sorted_Sorted x l :
  Sorted (key_le key le) l → Sorted (key_le key le) (insert_sorted key le x l).
Proof.
  induction 1 as [|y l Hl IH Hhd]; simpl.
  - by repeat constructor.
  - destruct (le (key x) (key y)) eqn:Hxy.
    + by repeat constructor.
    + constructor; [done|].
      destruct Hhd as [|z l' Hyz]; simpl.
      * constructor. destruct (le_total (key x) (key y)); [congruence|done].
      * destruct (le (key x) (key z)); constructor; [|done].
        destruct (le_total (key x) (key y)); [congruence|done].
Qed.

Lemma sorted_Sorted l : Sorted (key_le key le) (sorted key le l).
Proof.
  induction l as [|x l IH]; simpl; [constructor|].
  by apply insert_sorted_Sorted.
Qed.

Hypothesis le_trans : ∀ k1 k2 k3, le k1 k2 = true → le k2 k3 = true → le k1 k3 = true.

Lemma sorted_StronglySorted l : StronglySorted (key_le key le) (sorted key le l).
Proof.
  apply Sorted_StronglySorted; [|apply sorted_Sorted].
  intros x y z. apply le_trans.
Qed.

(** Stability: the elements whose keys are equivalent to a given key keep
    the order they had. *)
Lemma insert_sorted_filter (P : A → Prop) `{∀ x, Decision (P x)} x l :
  (∀ y, P x → P y → (key_le key le) x y) →
  filter P (insert_sorted key le x l) = filter P (x :: l).
Proof.
  intros HP. induction l as [|y l IH]; simpl; [done|].
  destruct (le (key x) (key y)) eqn:Hxy; [done|].
  rewrite (filter_cons _ y), IH, !filter_cons.
  destruct (decide (P x)) as [Hx|]; [|done].
  destruct (decide (P y)) as [Hy|]; [|done].
  specialize (HP y Hx Hy). unfold key_le in HP. congruence.
Qed.

Lemma sorted_stable (k : K) l :
  filter (λ y, le k (key y) = true ∧ le (key y) k = true) (sorted key le l) =
  filter (λ y, le k (key y) = true ∧ le (key y) k = true) l.
Proof.
  induction l as [|x l IH]; simpl; [done|].
  rewrite insert_sorted_filter.
  - by rewrite !filter_cons, IH.
  - intros y [_ Hx] [Hy _]. by eapply le_trans.
Qed.
End sorted_properties.

(** The order on strings. *)
Lemma string_compare_trans s1 s2 s3 :
  String.compare s1 s2 ≠ Gt → String.compare s2 s3 ≠ Gt → String.compare s1 s3 ≠ Gt.
Proof.
  revert s2 s3. induction s1 as [|c1 s1 IH]; intros [|c2 s2] [|c3 s3]; simpl; try done.
  unfold Ascii.compare.
  destruct (N.compare_spec (Ascii.N_of_ascii c1) (Ascii.N_of_ascii c2)) as [E12|L12|G12];
    destruct (N.compare_spec (Ascii.N_of_ascii c2) (Ascii.N_of_ascii c3)) as [E23|L23|G23];
    try done.
  - rewrite E12, E23, N.compare_refl. apply IH.
  - intros _ _. rewrite E12. by apply N.compare_lt_iff in L23 as ->.
  - intros _ _. rewrite <- E23. by apply N.compare_lt_iff in L12 as ->.
  - intros _ _. assert (Ascii.N_of_ascii c1 < Ascii.N_of_ascii c3)%N as L13 by lia.
    by apply N.compare_lt_iff in L13 as ->.
Qed.

Lemma string_leb_trans s1 s2 s3 :
  String.leb s1 s2 = true → String.leb s2 s3 = true → String.leb s1 s3 = true.
Proof.
  unfold String.leb. intros H12 H23.
  pose proof (string_compare_trans s1 s2 s3) as Ht.
  destruct (String.compare s1 s2), (String.compare s2 s3), (String.compare s1 s3);
    try done; exfalso; by apply Ht.
Qed.

(** ** Sums and rounding *)

Lemma foldl_Zadd (l : list Z) (acc : Z) : foldl Z.add acc l = acc + foldl Z.add 0 l.
Proof.
  revert acc. induction l as [|x l IH]; intros acc; simpl; [lia|].
  rewrite (IH (acc + x)), (IH (0 + x)). lia.
Qed.

(** The rounding to an integer lands at distance at most 1/2, and on the
    even neighbour when both are at distance 1/2. *)
Lemma round_half_even_close (x : Q) :
  (inject_Z (round_half_even x) - (1 # 2) <= x <= inject_Z (round_half_even x) + (1 # 2))%Q.
Proof.
  unfold round_half_even.
  pose proof (Qfloor_le x) as Hlo. pose proof (Qlt_floor x) as Hhi.
  rewrite inject_Z_plus in Hhi. change (inject_Z 1) with 1%Q in Hhi.
  destruct (x - inject_Z (Qfloor x) ?= 1 # 2)%Q eqn:Hc.
  - apply Qeq_alt in Hc.
    destruct (Z.even (Qfloor x)); [|rewrite inject_Z_plus; change (inject_Z 1) with 1%Q];
      lra.
  - apply Qlt_alt in Hc. lra.
  - apply Qgt_alt in Hc. rewrite inject_Z_plus. change (inject_Z 1) with 1%Q. lra.
Qed.

Lemma round_half_even_tie (n : Z) :
  round_half_even (inject_Z n + (1 # 2)) = if Z.even n then n else n + 1.
Proof.
  unfold round_half_even.
  assert (Qfloor (inject_Z n + (1 # 2)) = n) as ->.
  { pose proof (Qfloor_le (inject_Z n + (1 # 2))) as Hlo.
    pose proof (Qlt_floor (inject_Z n + (1 # 2))) as Hhi.
    set (f := Qfloor (inject_Z n + (1 # 2))) in *.
    unfold Qle, Qlt in Hlo, Hhi. simpl in Hlo, Hhi. lia. }
  assert ((inject_Z n + (1 # 2) - inject_Z n ?= 1 # 2)%Q = Eq) as ->; [|done].
  apply Qeq_alt. ring.
Qed.

(** ** Properties of the trend computation *)

Lemma halves_nonempty {A} (l : list A) :
  (2 ≤ length l)%nat →
  (1 ≤ length l / 2)%nat ∧ (1 ≤ length l - length l / 2)%nat ∧
  length (take (length l / 2) l) = (length l / 2)%nat ∧
  length (drop (length l / 2) l) = (length l - length l / 2)%nat.
Proof.
  intros Hn.
  pose proof (Nat.div_mod_eq (length l) 2) as Hdiv.
  pose proof (Nat.mod_upper_bound (length l) 2 ltac:(lia)) as Hmod.
  rewrite length_take, length_drop. lia.
Qed.

(** C10. With at least 2 items, the midpoint [mid = floor(n/2)] and the
    size [n - mid] of the second half are both at least 1: the two
    divisors of the half means are not zero, the zero fallbacks of the two
    guards are not taken, and each half mean is the mean of a non-empty
    half. *)
Theorem trend_halves_nonempty (consolidated : ConsolidatedResponse) :
  (2 ≤ length (items_of consolidated))%nat →
  let sorted_items := sorted date_key String.leb (items_of consolidated) in
  let n := length sorted_items in
  let mid := (n / 2)%nat in
  (1 ≤ mid)%nat ∧ (1 ≤ n - mid)%nat ∧
  (0 <? mid)%nat = true ∧ (0 <? n - mid)%nat = true ∧
  ¬ (inject_Z (Z.of_nat mid) == 0)%Q ∧ ¬ (inject_Z (Z.of_nat (n - mid)) == 0)%Q ∧
  take mid sorted_items ≠ [] ∧ drop mid sorted_items ≠ [] ∧
  half_mean (take mid sorted_items) mid =
    (sum_Q (engagement_or_0 <$> take mid sorted_items) / inject_Z (Z.of_nat mid))%Q ∧
  half_mean (drop mid sorted_items) (n - mid) =
    (sum_Q (engagement_or_0 <$> drop mid sorted_items) / inject_Z (Z.of_nat (n - mid)))%Q.
Proof.
  intros Hn sorted_items n mid.
  assert (2 ≤ length sorted_items)%nat as Hs
    by (subst sorted_items; by rewrite sorted_length).
  destruct (halves_nonempty sorted_items Hs) as (Hmid & Hrest & Htake & Hdrop).
  fold n in Hmid, Hrest, Htake, Hdrop. fold mid in Hmid, Hrest, Htake, Hdrop.
  assert ((0 <? mid)%nat = true) as Hg1 by (apply Nat.ltb_lt; lia).
  assert ((0 <? n - mid)%nat = true) as Hg2 by (apply Nat.ltb_lt; lia).
  split; [done|]. split; [done|]. split; [done|]. split; [done|].
  split. { unfold Qeq. simpl. lia. }
  split. { unfold Qeq. simpl. lia. }
  split. { intros Hnil. rewrite Hnil in Htake. simpl in Htake. lia. }
  split. { intros Hnil. rewrite Hnil in Hdrop. simpl in Hdrop. lia. }
  unfold half_mean. by rewrite Hg1, Hg2.
Qed.

Lemma trend_halves_nonempty_witness :
  (2 ≤ length (items_of two_posts))%nat ∧
  (1 ≤ length (items_of two_posts) / 2)%nat ∧
  (1 ≤ length (items_of two_posts) - length (items_of two_posts) / 2)%nat.
Proof.
  assert (2 ≤ length (items_of two_posts))%nat as Hn by (simpl; lia).
  split; [exact Hn|].
  destruct (trend_halves_nonempty two_posts Hn) as (H1 & H2 & _).
  split; [exact H1 | exact H2].
Defined.

(** ** The summary and the trend on Python's numbers *)

Section binary64_properties.
Import binary64.

(** *** Floats against zero *)

Lemma float_eqb_zero (x : float) :
  (x =? 0)%float = true ↔ x = 0%float ∨ x = (-0)%float.
Proof.
  rewrite FloatAxioms.eqb_spec. change (Prim2SF 0) with (S754_zero false). split.
  - intros H. destruct (Prim2SF x) as [s|s| |s m e] eqn:Hx.
    + rewrite <- (SF2Prim_Prim2SF x), Hx. destruct s; [right | left]; reflexivity.
    + destruct s; discriminate H.
    + discriminate H.
    + destruct s; discriminate H.
  - intros [-> | ->]; reflexivity.
Qed.

Lemma float_ltb_zero (x : float) :
  (0 <? x)%float = true → (x =? 0)%float = false.
Proof.
  rewrite FloatAxioms.ltb_spec, FloatAxioms.eqb_spec. change (Prim2SF 0) with (S754_zero false).
  destruct (Prim2SF x) as [s|s| |s m e]; try destruct s; done.
Qed.

Lemma compare_zero_finite (s : bool) (m : positive) (e : Z) :
  match e with
  | Z.neg p => (0 * 2 ^ Z.pos p ?= (if s then Z.neg m else Z.pos m))
  | _ => (0 ?= (if s then Z.neg m else Z.pos m) * 2 ^ e)
  end = if s then Gt else Lt.
Proof.
  destruct e as [|p|p], s; try done.
  - apply Z.compare_gt_iff. pose proof (Z.pow_pos_nonneg 2 (Z.pos p)). lia.
  - apply Z.compare_lt_iff. pose proof (Z.pow_pos_nonneg 2 (Z.pos p)). lia.
Qed.

Lemma py_gt_float_zero (x : float) :
  py_gt (PyFloat x) (PyInt 0) = (0 <? x)%float.
Proof.
  unfold py_gt, py_lt, compare_int_float. rewrite FloatAxioms.ltb_spec.
  change (Prim2SF 0) with (S754_zero false).
  destruct (Prim2SF x) as [s|s| |s m e]; try destruct s; try done.
  - by rewrite (compare_zero_finite true).
  - by rewrite (compare_zero_finite false).
Qed.

Lemma float_of_int_100 : float_of_int 100 = Return 100%float.
Proof. reflexivity. Qed.

(** A quotient, when there is one, is a float. *)
Lemma py_truediv_float (a b v : number) :
  py_truediv a b = Return v → ∃ x, v = PyFloat x.
Proof.
  unfold py_truediv. destruct a as [x|x], b as [y|y]; simpl.
  - destruct (y =? 0); [done|].
    destruct (is_infinity _); [done|]. intros [= <-]. eauto.
  - destruct (float_of_int x); simpl; [|done].
    destruct (y =? 0)%float; [done|]. intros [= <-]. eauto.
  - destruct (float_of_int y) as [y'|]; simpl; [|done].
    destruct (y' =? 0)%float; [done|]. intros [= <-]. eauto.
  - destruct (y =? 0)%float; [done|]. intros [= <-]. eauto.
Qed.

(** *** The summary *)

Lemma sum_Z_total (f : MetricItem → Z) l : sum_Z (f <$> l) = total f l.
Proof.
  unfold sum_Z. induction l as [|x l IH]; csimpl; [done|].
  rewrite foldl_Zadd, IH. lia.
Qed.

Lemma py_bool_true (a : number) :
  py_bool a = true ↔ a ≠ PyInt 0 ∧ a ≠ PyFloat 0 ∧ a ≠ PyFloat (-0).
Proof.
  destruct a as [z|x]; simpl; rewrite negb_true_iff.
  - rewrite Z.eqb_neq. split.
    + intros Hz. split; [congruence | done].
    + intros [Hz _] ->. done.
  - rewrite <- not_true_iff_false, float_eqb_zero. split.
    + intros Hx. split; [done|]. split; intros [= ->]; tauto.
    + intros (_ & H0 & H1) [-> | ->]; done.
Qed.

Lemma truthy_num_true (item : MetricItem) :
  truthy_num (engagement item) = true ↔
  ∃ e, engagement item = Some e ∧ e ≠ PyInt 0 ∧ e ≠ PyFloat 0 ∧ e ≠ PyFloat (-0).
Proof.
  unfold truthy_num. split.
  - destruct (engagement item) as [e|]; [|done].
    intros Ht. exists e. split; [done|]. by apply py_bool_true.
  - intros (e & -> & He). by apply py_bool_true.
Qed.

Lemma elem_of_engaged item items :
  item ∈ engaged items ↔
  item ∈ items ∧
  ∃ e, engagement item = Some e ∧ e ≠ PyInt 0 ∧ e ≠ PyFloat 0 ∧ e ≠ PyFloat (-0).
Proof.
  unfold engaged. rewrite list_elem_of_filter, truthy_num_true. tauto.
Qed.

Lemma calculate_summary_stats_mean sum consolidated :
  _calculate_summary_stats sum consolidated =
    bind (if decide (engaged (items_of consolidated) = [])
          then Return (PyFloat 0)
          else engaged_mean sum (items_of consolidated)) (λ avg_engagement,
      Return (summary_with consolidated (py_round2 avg_engagement))).
Proof.
  unfold _calculate_summary_stats, summary_with, engaged_mean.
  rewrite !sum_Z_total, length_fmap.
  change (filter _ (items_of consolidated)) with (engaged (items_of consolidated)).
  by destruct (engaged (items_of consolidated)).
Qed.

Lemma PyFloat_neq (x y : float) : Prim2SF x ≠ Prim2SF y → PyFloat x ≠ PyFloat y.
Proof. intros Hxy Heq. apply Hxy. injection Heq as ->. reflexivity. Qed.

(** C5, as stated, fails: an engagement that is an [int] beyond the range
    of the floats makes the division of the mean raise, and there is no
    summary. *)
Lemma claimed_summary_counterexample :
  _calculate_summary_stats sum_left_to_right huge_engagement =
    Raise (OverflowError "integer division result too large for a float") ∧
  ¬ claimed_summary huge_engagement.
Proof.
  split; [by vm_compute|].
  intros (summary & Hs & _). vm_compute in Hs. discriminate Hs.
Qed.

(** C5, amended.  The items that count for the average are exactly those
    whose engagement is present and truthy, that is, not the [int] 0 and
    not a float zero.  When no item counts, the average is 0.0.
    Otherwise the mean is the [sum] of the engagements that count divided
    by their number, computed on Python's numbers: when it can be
    computed it is a float, and [average_engagement] is that float
    rounded by [round(x, 2)]; when it cannot, the error is raised and
    there is no summary.  The three totals are the sums of their fields
    over all the items, a missing field counting for 0. *)
Theorem summary_stats_correct (sum : list number → outcome number)
    (consolidated : ConsolidatedResponse) :
  let items := default [] (m_items (metrics consolidated)) in
  let counts item :=
    ∃ e, engagement item = Some e ∧ e ≠ PyInt 0 ∧ e ≠ PyFloat 0 ∧ e ≠ PyFloat (-0) in
  let counted := filter (λ item, truthy_num (engagement item) = true) items in
  let mean :=
    bind (sum ((λ item, default (PyInt 0) (engagement item)) <$> counted)) (λ s,
      py_truediv s (PyInt (Z.of_nat (length counted)))) in
  let summary_of average :=
    {| ss_total_users := total_users (metadata consolidated);
       ss_total_accounts := total_accounts (metadata consolidated);
       average_engagement := average;
       total_views := total (λ item, default 0 (views item)) items;
       total_likes := total (λ item, default 0 (likes item)) items;
       total_interactions := total (λ item, default 0 (totalInteractions item)) items |} in
  let summary := _calculate_summary_stats sum consolidated in
  (∀ item, truthy_num (engagement item) = true ↔ counts item) ∧
  (∀ item, item ∈ counted ↔ item ∈ items ∧ counts item) ∧
  (counted = [] → summary = Return (summary_of (PyFloat 0))) ∧
  (counted ≠ [] →
   (∀ e, mean = Raise e → summary = Raise e) ∧
   (∀ v, mean = Return v →
      ∃ x, v = PyFloat x ∧ summary = Return (summary_of (PyFloat (float_round2 x))))).
Proof.
  intros items counts counted mean summary_of summary.
  split; [intros item; apply truthy_num_true|].
  split; [intros item; apply elem_of_engaged|].
  subst summary. rewrite calculate_summary_stats_mean.
  change (items_of consolidated) with items.
  change (engaged items) with counted.
  change (engaged_mean sum items) with mean.
  change (summary_with consolidated) with summary_of.
  split.
  - intros Hnil. by rewrite decide_True.
  - intros Hne. rewrite decide_False by done. split.
    + by intros e ->.
    + intros v Hv. rewrite Hv.
      unfold mean in Hv. destruct (sum _) as [s|]; simpl in Hv; [|done].
      apply py_truediv_float in Hv as [x ->]. by exists x.
Qed.

(** *** The trend *)

Lemma sorted_by_date_stable (d : string) (items : list MetricItem) :
  filter (λ x, date_key x = d) (sorted date_key String.leb items) =
  filter (λ x, date_key x = d) items.
Proof.
  pose proof (sorted_stable date_key String.leb string_leb_trans d items) as Hst.
  rewrite (list_filter_iff (λ x, date_key x = d)
             (λ y, String.leb d (date_key y) = true ∧ String.leb (date_key y) d = true)).
  - rewrite Hst. apply list_filter_iff. intros x. split.
    + intros [H1 H2]. symmetry. by apply String.leb_antisym.
    + intros <-. destruct (String.leb_total (date_key x) (date_key x)); done.
  - intros x. split.
    + intros <-. destruct (String.leb_total (date_key x) (date_key x)); done.
    + intros [H1 H2]. symmetry. by apply String.leb_antisym.
Qed.

(** The label and the growth rate computed from two half means that are
    floats. *)
Lemma trend_of_halves (f s : float) :
  bind (bind (py_mul (PyFloat f) (PyFloat 1.1)) (λ upper,
          if py_gt (PyFloat s) upper then Return "increasing"
          else bind (py_mul (PyFloat f) (PyFloat 0.9)) (λ lower,
                 Return (if py_lt (PyFloat s) lower then "decreasing"
                         else "stable")))) (λ engagement_trend,
  bind (if py_gt (PyFloat f) (PyInt 0)
        then bind (py_sub (PyFloat s) (PyFloat f)) (λ difference,
             bind (py_truediv difference (PyFloat f)) (λ ratio,
             py_mul ratio (PyInt 100)))
        else Return (PyFloat 0)) (λ growth_rate,
  Return {| growth_rate := py_round2 growth_rate;
            engagement_trend := engagement_trend |})) =
  Return (trend_of f s).
Proof.
  rewrite py_gt_float_zero. unfold trend_of.
  assert (∀ g, bind (if (0 <? f)%float
                then bind (py_sub (PyFloat s) (PyFloat f)) (λ difference,
                     bind (py_truediv difference (PyFloat f)) (λ ratio,
                     py_mul ratio (PyInt 100)))
                else Return (PyFloat 0)) (λ growth_rate,
              Return {| growth_rate := py_round2 growth_rate; engagement_trend := g |}) =
            Return {| growth_rate :=
                        PyFloat (if (0 <? f)%float
                                 then float_round2 ((s - f) / f * 100)%float
                                 else 0%float);
                      engagement_trend := g |}) as Hgrowth.
  { intros g. destruct (0 <? f)%float eqn:Hpos; [|reflexivity].
    cbn [py_sub py_truediv to_float bind].
    rewrite (float_ltb_zero f Hpos).
    cbn [py_mul to_float bind]. rewrite float_of_int_100. reflexivity. }
  cbn [py_mul to_float bind py_gt py_lt].
  destruct (f * 1.1 <? s)%float; cbn [bind]; [apply Hgrowth|].
  destruct (s <? f * 0.9)%float; apply Hgrowth.
Qed.

Lemma calculate_trends_halves sum consolidated :
  (2 ≤ length (items_of consolidated))%nat →
  _calculate_trends sum consolidated =
    bind (first_half_mean sum (items_of consolidated)) (λ first_half_eng,
    bind (second_half_mean sum (items_of consolidated)) (λ second_half_eng,
    bind (bind (py_mul first_half_eng (PyFloat 1.1)) (λ upper,
            if py_gt second_half_eng upper then Return "increasing"
            else bind (py_mul first_half_eng (PyFloat 0.9)) (λ lower,
                   Return (if py_lt second_half_eng lower then "decreasing"
                           else "stable")))) (λ engagement_trend,
    bind (if py_gt first_half_eng (PyInt 0)
          then bind (py_sub second_half_eng first_half_eng) (λ difference,
               bind (py_truediv difference first_half_eng) (λ ratio,
               py_mul ratio (PyInt 100)))
          else Return (PyFloat 0)) (λ growth_rate,
    Return {| growth_rate := py_round2 growth_rate;
              engagement_trend := engagement_trend |})))).
Proof.
  intros Hn. unfold _calculate_trends, first_half_mean, second_half_mean, half_mean.
  rewrite sorted_length.
  destruct (halves_nonempty (items_of consolidated) Hn) as (Hmid & Hrest & _).
  apply Nat.leb_le in Hn. rewrite Hn.
  apply Nat.ltb_lt in Hmid, Hrest. by rewrite Hmid, Hrest.
Qed.

(** C4, as stated, fails: halves of equal negative mean are classified
    "increasing", not "stable", and for a negative first-half mean the
    growth rate is 0.0, not the rounded quotient (here 100). *)
Lemma claimed_trend_rule_counterexample :
  _calculate_trends sum_left_to_right equal_negative_halves =
    Return {| growth_rate := PyFloat 0; engagement_trend := "increasing" |} ∧
  _calculate_trends sum_left_to_right falling_negative_halves =
    Return {| growth_rate := PyFloat 0; engagement_trend := "decreasing" |} ∧
  ¬ claimed_trend_rule equal_negative_halves ∧
  ¬ claimed_trend_rule falling_negative_halves.
Proof.
  split; [by vm_compute|]. split; [by vm_compute|]. split.
  - intros (f & s & t & Hf & Hs & Ht & Hstable & _).
    vm_compute in Hf. vm_compute in Hs. vm_compute in Ht.
    injection Hf as <-. injection Hs as <-. injection Ht as <-.
    specialize (Hstable eq_refl). discriminate Hstable.
  - intros (f & s & t & Hf & Hs & Ht & _ & Hgrowth).
    vm_compute in Hf. vm_compute in Hs. vm_compute in Ht.
    injection Hf as <-. injection Hs as <-. injection Ht as <-.
    vm_compute in Hgrowth. revert Hgrowth. apply PyFloat_neq. by vm_compute.
Qed.

(** C4, amended.  With fewer than 2 items the trend is "insufficient_data"
    and the growth rate 0.0.  With at least 2 items, the items are sorted
    ascending by [datePosted] (a missing date is the empty string, equal
    dates keep their order) and split at [mid = floor(n/2)]; each half
    mean is the [sum] of the engagements of the half, a missing one
    counting for 0, divided by the size of the half, computed on Python's
    numbers.  When a half mean cannot be computed, its error is raised.
    Otherwise both half means are floats, [first] and [second], and in
    binary64 arithmetic the trend is "increasing" iff
    [second > first * 1.1], "decreasing" iff it is not increasing and
    [second < first * 0.9], and "stable" otherwise; the growth rate is
    [round((second - first) / first * 100, 2)] when [first > 0], and 0.0
    when the first-half mean is 0, negative or nan. *)
Theorem trend_classification (sum : list number → outcome number)
    (consolidated : ConsolidatedResponse) :
  let items := default [] (m_items (metrics consolidated)) in
  let trends := _calculate_trends sum consolidated in
  let date x := default "" (datePosted x) in
  let sorted_items := sorted date String.leb items in
  let mid := (length items / 2)%nat in
  let value i := default (PyInt 0) (engagement i) in
  let first :=
    bind (sum (value <$> take mid sorted_items)) (λ s,
      py_truediv s (PyInt (Z.of_nat mid))) in
  let second :=
    bind (sum (value <$> drop mid sorted_items)) (λ s,
      py_truediv s (PyInt (Z.of_nat (length items - mid)))) in
  ((length items < 2)%nat →
   trends = Return {| growth_rate := PyFloat 0;
                      engagement_trend := "insufficient_data" |}) ∧
  ((2 ≤ length items)%nat →
   sorted_items ≡ₚ items ∧
   Sorted (λ x y, String.leb (date x) (date y) = true) sorted_items ∧
   (∀ d, filter (λ x, date x = d) sorted_items = filter (λ x, date x = d) items) ∧
   (∀ e, first = Raise e → trends = Raise e) ∧
   (∀ v e, first = Return v → second = Raise e → trends = Raise e) ∧
   (∀ v w, first = Return v → second = Return w →
      ∃ (f s : float) (t : Trends),
        v = PyFloat f ∧ w = PyFloat s ∧ trends = Return t ∧
        (engagement_trend t = "increasing" ↔ (f * 1.1 <? s)%float = true) ∧
        (engagement_trend t = "decreasing" ↔
           (f * 1.1 <? s)%float = false ∧ (s <? f * 0.9)%float = true) ∧
        (engagement_trend t = "stable" ↔
           (f * 1.1 <? s)%float = false ∧ (s <? f * 0.9)%float = false) ∧
        ((0 <? f)%float = true →
           growth_rate t = PyFloat (float_round2 ((s - f) / f * 100)%float)) ∧
        ((0 <? f)%float = false → growth_rate t = PyFloat 0))).
Proof.
  intros items trends date sorted_items mid value first second. split.
  - intros Hn. subst trends. unfold _calculate_trends.
    change (items_of consolidated) with items.
    apply Nat.leb_gt in Hn. by rewrite Hn.
  - intros Hn.
    split; [apply sorted_Permutation|].
    split; [apply (sorted_Sorted date_key String.leb), String.leb_total|].
    split; [intros d; apply sorted_by_date_stable|].
    subst trends. rewrite (calculate_trends_halves sum consolidated Hn).
    change (items_of consolidated) with items.
    change (first_half_mean sum items) with first.
    change (second_half_mean sum items) with second.
    split; [by intros e ->|].
    split; [by intros v e -> ->|].
    intros v w Hv Hw. rewrite Hv, Hw. cbn [bind].
    assert (∃ f, v = PyFloat f) as [f ->].
    { unfold first in Hv.
      destruct (sum (value <$> take mid sorted_items)) as [t|];
        simpl in Hv; [|done].
      by apply py_truediv_float in Hv. }
    assert (∃ s, w = PyFloat s) as [s ->].
    { unfold second in Hw.
      destruct (sum (value <$> drop mid sorted_items)) as [t|];
        simpl in Hw; [|done].
      by apply py_truediv_float in Hw. }
    exists f, s, (trend_of f s).
    split; [done|]. split; [done|]. split; [apply trend_of_halves|].
    unfold trend_of. cbn [engagement_trend growth_rate].
    destruct (f * 1.1 <? s)%float, (s <? f * 0.9)%float, (0 <? f)%float;
      repeat split; try done; intros [? ?]; done.
Qed.

End binary64_properties.

(** ** Properties of the insertion-ordered dict *)

Section dict.
Context {K V : Type} `{EqDecision K}.
Implicit Types (d : list (K * V)) (k : K) (f : option V → V).

Lemma dict_get_update k k' f d :
  dict_get k' (dict_update k f d) =
    if decide (k' = k) then Some (f (dict_get k d)) else dict_get k' d.
Proof.
  induction d as [|[k0 v0] d IH]; simpl.
  - destruct (decide (k = k')), (decide (k' = k)); congruence.
  - destruct (decide (k0 = k)) as [->|Hk0]; simpl.
    + destruct (decide (k = k')), (decide (k' = k)); congruence.
    + rewrite IH.
      destruct (decide (k0 = k')), (decide (k' = k)); congruence.
Qed.

Lemma dict_get_None k d : dict_get k d = None ↔ k ∉ d.*1.
Proof.
  induction d as [|[k0 v0] d IH]; simpl.
  - split; [intros _; apply not_elem_of_nil | done].
  - rewrite not_elem_of_cons. destruct (decide (k0 = k)) as [->|]; split.
    + done.
    + intros [? _]. done.
    + intros Hg. split; [congruence | by apply IH].
    + intros [_ Hd]. by apply IH.
Qed.

Lemma dict_update_keys k f d :
  (dict_update k f d).*1 = if decide (k ∈ d.*1) then d.*1 else d.*1 ++ [k].
Proof.
  induction d as [|[k0 v0] d IH]; csimpl.
  - done.
  - destruct (decide (k0 = k)) as [->|Hk0]; csimpl.
    + rewrite decide_True; [done | left].
    + rewrite IH. destruct (decide (k ∈ d.*1)) as [Hin|Hin].
      * rewrite decide_True; [done | by right].
      * rewrite decide_False; [done|].
        rewrite not_elem_of_cons. split; [congruence | done].
Qed.

Lemma dict_update_NoDup k f d : NoDup d.*1 → NoDup (dict_update k f d).*1.
Proof.
  intros Hd. rewrite dict_update_keys. case_decide; [done|].
  apply NoDup_app. split; [done|]. split; [|apply NoDup_singleton].
  intros x Hx ->%list_elem_of_singleton. done.
Qed.

Lemma dict_get_elem_of k v d : NoDup d.*1 → (k, v) ∈ d ↔ dict_get k d = Some v.
Proof.
  induction d as [|[k0 v0] d IH]; simpl; intros Hd.
  - split; [by intros ?%elem_of_nil | done].
  - apply NoDup_cons in Hd as [Hk0 Hd]. rewrite elem_of_cons.
    destruct (decide (k0 = k)) as [->|Hne].
    + split.
      * intros [[= ->] | Hin]; [done|].
        exfalso. apply Hk0. apply list_elem_of_fmap. by exists (k, v).
      * intros [= ->]. by left.
    + rewrite <- (IH Hd). split; [intros [[= ? ?] | ?]; done | by right].
Qed.
End dict.

(** ** Properties of the user ranking *)

Lemma owner_spec account id :
  owner account = Some id ↔
  id ≠ 0 ∧
  (a_userId account = Some id ∨
   (a_userId account = None ∨ a_userId account = Some 0) ∧ a_user_id account = Some id).
Proof.
  unfold owner, or_int, truthy_int.
  destruct (a_userId account) as [x|], (a_user_id account) as [y|]; simpl;
    repeat match goal with
           | |- context [?z =? 0] => destruct (Z.eqb_spec z 0); simpl
           end; intuition congruence.
Qed.

Lemma count_account_owner d account :
  count_account d account =
    match owner account with
    | Some id => dict_update id (λ c, default 0 c + 1) d
    | None => d
    end.
Proof.
  unfold count_account, owner.
  destruct (or_int (a_userId account) (a_user_id account)) as [id|]; [|done].
  by destruct (truthy_int (Some id)).
Qed.

Lemma owned_cons id account accs :
  owned id (account :: accs) =
    (if decide (owner account = Some id) then 1 else 0) + owned id accs.
Proof.
  unfold owned. rewrite filter_cons. case_decide; simpl length; lia.
Qed.


(** The counts after the loop, started from the counts [d0]. *)
Lemma count_accounts_spec accs (d0 : list (Z * Z)) :
  NoDup d0.*1 →
  (∀ id c, dict_get id d0 = Some c → 0 < c) →
  let d := foldl count_account d0 accs in
  NoDup d.*1 ∧
  (∀ id c, dict_get id d = Some c → 0 < c) ∧
  (∀ id, default 0 (dict_get id d) = default 0 (dict_get id d0) + owned id accs).
Proof.
  revert d0. induction accs as [|account accs IH]; intros d0 Hnd Hpos; simpl.
  - split; [done|]. split; [done|]. intros id. unfold owned. simpl. lia.
  - rewrite count_account_owner.
    destruct (owner account) as [k|] eqn:Hown.
    + destruct (IH (dict_update k (λ c, default 0 c + 1) d0)) as (IH1 & IH2 & IH3).
      * by apply dict_update_NoDup.
      * intros id c. rewrite dict_get_update. case_decide.
        -- intros [= <-]. destruct (dict_get k d0) as [c0|] eqn:Hk; simpl; [|lia].
           apply Hpos in Hk. lia.
        -- apply Hpos.
      * split; [done|]. split; [done|]. intros id.
        rewrite IH3, dict_get_update, owned_cons.
        destruct (decide (id = k)) as [->|Hne].
        -- rewrite decide_True by done. simpl. lia.
        -- rewrite decide_False by congruence. lia.
    + destruct (IH d0 Hnd Hpos) as (IH1 & IH2 & IH3).
      split; [done|]. split; [done|]. intros id.
      rewrite IH3, owned_cons. rewrite decide_False by congruence. lia.
Qed.

Lemma user_account_count_spec accs :
  let d := foldl count_account [] accs in
  NoDup d.*1 ∧ ∀ id c, (id, c) ∈ d ↔ c = owned id accs ∧ 0 < c.
Proof.
  destruct (count_accounts_spec accs []) as (Hnd & Hpos & Hcount);
    [constructor | done |].
  split; [done|]. intros id c. rewrite dict_get_elem_of by done.
  specialize (Hcount id). simpl in Hcount.
  split.
  - intros Hget. rewrite Hget in Hcount. simpl in Hcount.
    split; [lia | by eapply Hpos].
  - intros [-> Hc]. destruct (dict_get id _) as [c|]; simpl in *; [f_equal|]; lia.
Qed.

Lemma email_of_list_find us id :
  email_of us id =
    match list_find (λ u, u_id u = Some id) us with
    | Some (_, u) => u_email u
    | None => Some "N/A"
    end.
Proof.
  induction us as [|u us IH]; simpl; [done|].
  case_decide; [done|]. rewrite IH.
  by destruct (list_find _ us) as [[i u']|].
Qed.

Lemma Zgeb_total (k1 k2 : Z) : Z.geb k1 k2 = true ∨ Z.geb k2 k1 = true.
Proof. rewrite !Z.geb_le. lia. Qed.

Lemma Zgeb_trans (k1 k2 k3 : Z) :
  Z.geb k1 k2 = true → Z.geb k2 k3 = true → Z.geb k1 k3 = true.
Proof. rewrite !Z.geb_le. lia. Qed.

Lemma StronglySorted_weaken {A} (R1 R2 : relation A) (l : list A) :
  (∀ x y, R1 x y → R2 x y) → StronglySorted R1 l → StronglySorted R2 l.
Proof.
  intros HR. induction 1 as [|x l Hl IH Hx]; constructor; [done|].
  eapply Forall_impl; [exact Hx|]. apply HR.
Qed.

(** The ranked (user id, count) pairs before they are turned into entries. *)
Lemma ranked_counts_spec accs :
  let ranked := take 5 (sorted snd Z.geb (foldl count_account [] accs)) in
  (length ranked ≤ 5)%nat ∧
  NoDup ranked.*1 ∧
  Forall (λ p, p.2 = owned p.1 accs ∧ 0 < p.2) ranked ∧
  StronglySorted (λ p1 p2 : Z * Z, p2.2 ≤ p1.2) ranked ∧
  (∀ id, 0 < owned id accs →
         id ∈ ranked.*1 ∨
         (length ranked = 5%nat ∧ Forall (λ p, owned id accs ≤ p.2) ranked)).
Proof.
  intros ranked.
  destruct (user_account_count_spec accs) as [Hnd Hd].
  set (d := foldl count_account [] accs) in *.
  set (s := sorted snd Z.geb d) in *.
  assert (s ≡ₚ d) as Hperm by apply sorted_Permutation.
  assert (StronglySorted (λ p1 p2 : Z * Z, p2.2 ≤ p1.2) s) as Hsorted.
  { eapply StronglySorted_weaken;
      [|apply (sorted_StronglySorted snd Z.geb Zgeb_total Zgeb_trans)].
    intros p1 p2. unfold key_le. rewrite Z.geb_le. done. }
  assert (s = ranked ++ drop 5 s) as Hsplit by (symmetry; apply take_drop).
  split; [subst ranked; rewrite length_take; lia|].
  split.
  { eapply sublist_NoDup; [|apply fmap_sublist, sublist_take].
    by rewrite Hperm. }
  split.
  { apply Forall_take, Forall_forall. intros [id c] Hin.
    rewrite Hperm in Hin. by apply Hd. }
  split; [rewrite Hsplit in Hsorted; by eapply StronglySorted_app_1_l|].
  intros id Hid.
  assert ((id, owned id accs) ∈ s) as Hin by (rewrite Hperm; by apply Hd).
  rewrite Hsplit in Hin. apply elem_of_app in Hin as [Hin|Hin].
  - left. apply list_elem_of_fmap. by exists (id, owned id accs).
  - right. split.
    + subst ranked. rewrite length_take. apply list_elem_of_lookup in Hin as [i Hi].
      apply lookup_lt_Some in Hi. rewrite length_drop in Hi. lia.
    + apply Forall_forall. intros p Hp.
      rewrite Hsplit in Hsorted.
      apply (StronglySorted_app_1_elem_of _ _ _ p (id, owned id accs) Hsorted Hp Hin).
Qed.

(** C6. The user ranking has at most 5 entries, one per user id, in
    descending order of account count.  The count of an entry is the
    number of accounts whose owning user id (the [userId] key, or else the
    [user_id] key) is the entry's user id; a user left out of the ranking
    has no more accounts than any ranked one.  The email of an entry is the
    email of the first user of the users list whose id is the entry's user
    id, and "N/A" when there is no such user.  For the accounts of users
    1, 1, 2 and the users 1 (a@x) and 2 (b@x), the first entry is user 1
    with 2 accounts and email a@x. *)
Theorem ranking_top_users :
  (∀ consolidated : ConsolidatedResponse,
     let us := users consolidated in
     let accs := scraped_accounts consolidated in
     let top := top_users (_calculate_rankings consolidated) in
     (length top ≤ 5)%nat ∧
     NoDup (tu_user_id <$> top) ∧
     StronglySorted (λ e1 e2, accounts_count e2 ≤ accounts_count e1) top ∧
     Forall (λ e,
       accounts_count e = owned (tu_user_id e) accs ∧
       0 < accounts_count e ∧
       tu_email e =
         match list_find (λ u, u_id u = Some (tu_user_id e)) us with
         | Some (_, u) => u_email u
         | None => Some "N/A"
         end) top ∧
     (∀ id, 0 < owned id accs →
            id ∈ tu_user_id <$> top ∨
            (length top = 5%nat ∧
             Forall (λ e, owned id accs ≤ accounts_count e) top)) ∧
     (∀ account id,
        owner account = Some id ↔
        id ≠ 0 ∧
        (a_userId account = Some id ∨
         (a_userId account = None ∨ a_userId account = Some 0) ∧
         a_user_id account = Some id))) ∧
  (∀ now ms dash,
     top_users (_calculate_rankings (snapshot_of now
       [mkUser (Some 1) (Some "a@x") None None; mkUser (Some 2) (Some "b@x") None None]
       [mkAccount None None (Some 1); mkAccount None None (Some 1);
        mkAccount None None (Some 2)] ms dash)) !! 0%nat =
     Some (mkTopUser 1 2 (Some "a@x"))).
Proof.
  split; [|done].
  intros consolidated us accs top.
  destruct (ranked_counts_spec accs) as (Hlen & Hnd & Hcount & Hsorted & Htop).
  set (ranked := take 5 (sorted snd Z.geb (foldl count_account [] accs))) in *.
  set (entry := λ '(user_id, count), mkTopUser user_id count (email_of us user_id)).
  assert (top = entry <$> ranked) as -> by done.
  assert (tu_user_id <$> (entry <$> ranked) = ranked.*1) as Hids.
  { rewrite <- list_fmap_compose. apply list_fmap_ext. by intros i [id c]. }
  split; [by rewrite length_fmap|].
  split; [by rewrite Hids|].
  split.
  { eapply StronglySorted_fmap; [|exact Hsorted]. by intros [id1 c1] [id2 c2]. }
  split.
  { apply Forall_fmap. eapply Forall_impl; [exact Hcount|].
    intros [id c] [Hc Hpos]. simpl in *.
    split; [done|]. split; [done|]. apply email_of_list_find. }
  split.
  { intros id Hid. rewrite Hids, length_fmap.
    destruct (Htop id Hid) as [Hin | [Hfull Hle]]; [by left|].
    right. split; [done|]. apply Forall_fmap.
    eapply Forall_impl; [exact Hle|]. by intros [id' c']. }
  intros account id. apply owner_spec.
Qed.

(** ** Concrete runs *)

(** *** Runs on Python's numbers *)

Section binary64_runs.
Import binary64.

(** Two posts, the later one with an engagement 15% above the earlier;
    two posts of the same engagement; and two posts whose quotient
    0.005000000000000001 rounds up. *)
Lemma trend_classification_witness :
  _calculate_trends sum_left_to_right two_posts =
    Return {| growth_rate := PyFloat 15; engagement_trend := "increasing" |} ∧
  _calculate_trends sum_left_to_right equal_posts =
    Return {| growth_rate := PyFloat 0; engagement_trend := "stable" |} ∧
  _calculate_trends sum_left_to_right close_posts =
    Return {| growth_rate := PyFloat 0.01; engagement_trend := "stable" |}.
Proof.
  split; [|split].
  - destruct (trend_classification sum_left_to_right two_posts) as [_ Hrule].
    destruct (Hrule ltac:(simpl; lia)) as (_ & _ & _ & _ & _ & Hhalves).
    destruct (Hhalves (PyFloat 20) (PyFloat 23))
      as (f & s & t & Hf & Hs & Ht & Hinc & _ & _ & Hgrow & _);
      [by vm_compute..|].
    injection Hf as <-. injection Hs as <-. rewrite Ht.
    destruct t as [growth label]. cbn [engagement_trend growth_rate] in *.
    rewrite Hgrow by (by vm_compute).
    rewrite (proj2 Hinc) by (by vm_compute). by vm_compute.
  - destruct (trend_classification sum_left_to_right equal_posts) as [_ Hrule].
    destruct (Hrule ltac:(simpl; lia)) as (_ & _ & _ & _ & _ & Hhalves).
    destruct (Hhalves (PyFloat 5) (PyFloat 5))
      as (f & s & t & Hf & Hs & Ht & _ & _ & Hstable & Hgrow & _);
      [by vm_compute..|].
    injection Hf as <-. injection Hs as <-. rewrite Ht.
    destruct t as [growth label]. cbn [engagement_trend growth_rate] in *.
    rewrite Hgrow by (by vm_compute).
    rewrite (proj2 Hstable) by (by vm_compute). by vm_compute.
  - destruct (trend_classification sum_left_to_right close_posts) as [_ Hrule].
    destruct (Hrule ltac:(simpl; lia)) as (_ & _ & _ & _ & _ & Hhalves).
    destruct (Hhalves (PyFloat 20000) (PyFloat 20001))
      as (f & s & t & Hf & Hs & Ht & _ & _ & Hstable & Hgrow & _);
      [by vm_compute..|].
    injection Hf as <-. injection Hs as <-. rewrite Ht.
    destruct t as [growth label]. cbn [engagement_trend growth_rate] in *.
    rewrite Hgrow by (by vm_compute).
    rewrite (proj2 Hstable) by (by vm_compute). by vm_compute.
Defined.

(** 37 posts of engagement 1 and 3 of engagement 2: the float nearest to
    43/40 is below 1.075 and rounds to 1.07. *)
Lemma summary_stats_correct_witness :
  _calculate_summary_stats sum_left_to_right forty_posts =
    Return {| ss_total_users := 0; ss_total_accounts := 0;
              average_engagement := PyFloat 1.07;
              total_views := 400; total_likes := 80; total_interactions := 0 |}.
Proof.
  destruct (summary_stats_correct sum_left_to_right forty_posts)
    as (_ & _ & _ & Hmean).
  destruct Hmean as [_ Hmean]; [by vm_compute|].
  destruct (Hmean (PyFloat 1.075)) as (x & Hx & Hs); [by vm_compute|].
  injection Hx as <-. rewrite Hs. by vm_compute.
Defined.

(** Engagements 0.1 and 0.2, the [int] 0, a negative zero and an item
    without engagement: the mean is over the two items that count. *)
Example summary_skips_zero_engagement :
  let item e v := mkItem None None None (Some v) None None e in
  _calculate_summary_stats sum_left_to_right
    (with_items [item (Some (PyFloat 0.1)) 10; item (Some (PyInt 0)) 20;
                 item (Some (PyFloat 0.2)) 30; item (Some (PyFloat (-0))) 40;
                 item None 50]) =
  Return {| ss_total_users := 0; ss_total_accounts := 0;
            average_engagement := PyFloat 0.15;
            total_views := 150; total_likes := 0; total_interactions := 0 |}.
Proof. by vm_compute. Qed.

(** With additions from left to right the average depends on the order of
    the items. *)
Example average_depends_on_order :
  let items (l : list float) := with_items ((λ x, post "" (PyFloat x)) <$> l) in
  _calculate_summary_stats sum_left_to_right (items [8.2; 2.3; 2.4; 5.4]%float) =
    Return (summary_with (items [8.2; 2.3; 2.4; 5.4]%float) (PyFloat 4.58)) ∧
  _calculate_summary_stats sum_left_to_right (items [8.2; 2.4; 2.3; 5.4]%float) =
    Return (summary_with (items [8.2; 2.4; 2.3; 5.4]%float) (PyFloat 4.57)).
Proof. by vm_compute. Qed.

(** Of two subnormal floats, the second a fifth above the first, the
    product of the first with 1.1 rounds to the second: "stable" with a
    growth rate of 20; a nan half mean is "stable" with growth rate 0. *)
Example trends_of_two_posts :
  _calculate_trends sum_left_to_right
    (with_items [post "a" (PyFloat nan); post "b" (PyFloat 5)]) =
    Return {| growth_rate := PyFloat 0; engagement_trend := "stable" |} ∧
  _calculate_trends sum_left_to_right
    (with_items [post "a" (PyFloat 2.5e-323); post "b" (PyFloat 3e-323)]) =
    Return {| growth_rate := PyFloat 20; engagement_trend := "stable" |}.
Proof. by vm_compute. Qed.

(** An [int] beyond the floats in a half makes the trend raise. *)
Example trends_of_huge_engagement :
  _calculate_trends sum_left_to_right
    (with_items [post "a" (PyInt 1); post "b" (PyInt (10 ^ 400))]) =
    Raise (OverflowError "integer division result too large for a float") ∧
  _calculate_trends sum_left_to_right
    (with_items [post "a" (PyFloat 1); post "b" (PyInt (10 ^ 400));
                 post "c" (PyInt 1); post "d" (PyInt 1)]) =
    Raise (OverflowError "int too large to convert to float").
Proof. by vm_compute. Qed.

(** [round(x, 2)] on floats. *)
Example float_round2_values :
  float_round2 <$> [1.075; 2.675; 0.125; 0.375; -0.001; 1e300; infinity; nan]%float =
  [1.07; 2.67; 0.12; 0.38; -0; 1e300; infinity; nan]%float.
Proof. by vm_compute. Qed.

End binary64_runs.

Lemma health_status_report_witness :
  _check_service_health slow_accounts "microservice1"
      (ms1_get_all_users metrics_down) = Return ("microservice1", "healthy") ∧
  _check_service_health slow_accounts "microservice2"
      (ms2_get_all_scraped_accounts metrics_down) = Return ("microservice2", "timeout") ∧
  _check_service_health slow_accounts "microservice3"
      (ms3_query_user_metrics all_raise None) = Return ("microservice3", "timeout") ∧
  _check_service_health slow_accounts "microservice3"
      (ms3_query_user_metrics metrics_down None) =
    Return ("microservice3", "unhealthy: connection refused").
Proof.
  destruct health_status_report as (Hprobe & _ & _).
  split; [|split; [|split]].
  - destruct (Hprobe slow_accounts _ "microservice1" (ms1_get_all_users metrics_down))
      as (Hhealthy & _ & _ & _).
    eapply Hhealthy; reflexivity.
  - destruct (Hprobe slow_accounts _ "microservice2"
                (ms2_get_all_scraped_accounts metrics_down)) as (_ & Htimeout & _ & _).
    apply Htimeout. reflexivity.
  - destruct (Hprobe slow_accounts _ "microservice3"
                (ms3_query_user_metrics all_raise None)) as (_ & _ & Hraised & _).
    apply Hraised. reflexivity.
  - destruct (Hprobe slow_accounts _ "microservice3"
                (ms3_query_user_metrics metrics_down None)) as (_ & _ & _ & Hunhealthy).
    apply (Hunhealthy (OtherError "connection refused")); [reflexivity..|discriminate].
Defined.

(** A connection error, an error status, then a reply: three requests and
    two sleeps of the configured delay. *)
Example make_request_third_attempt :
  _make_request (mkBaseClient 30 3 1.0)
    (fails_twice_then (OtherError "connection refused")
       (HTTPStatusError 503 "Service Unavailable") "payload") =
  (Some "payload",
   [EvRequest 0; EvError; EvSleep 1.0; EvRequest 1; EvWarning; EvSleep 1.0; EvRequest 2]).
Proof. reflexivity. Qed.

(** Three failures with [max_retries = 3]: None after the third attempt,
    without a third sleep. *)
Example make_request_exhausted :
  _make_request (A := string) (mkBaseClient 30 3 1.0) (λ _, Raise TimeoutError) =
  (None,
   [EvRequest 0; EvError; EvSleep 1.0; EvRequest 1; EvError; EvSleep 1.0;
    EvRequest 2; EvError]).
Proof. reflexivity. Qed.

(** The prober on the clients whose metrics service is down, with the
    accounts probe past its deadline. *)
Example check_services_health_run :
  check_services_health metrics_down slow_accounts =
    Return {[ "microservice1" := "healthy"; "microservice2" := "timeout";
              "microservice3" := "unhealthy: connection refused";
              "microservice4" := "healthy" ]}.
Proof. reflexivity. Qed.

(** The cut counts characters: of an error of 60 accented letters, two
    bytes each, the first 50 letters are kept. *)
Example check_service_health_cuts_characters :
  char_length accents_60 = 60%nat ∧ String.length accents_60 = 120%nat ∧
  _check_service_health (A := unit) in_time "microservice4"
    (Raise (OtherError accents_60)) =
  Return ("microservice4", "unhealthy: " +:+ accents_50).
Proof. by vm_compute. Qed.

(** Six users with accounts: the ranking keeps five, the larger counts
    first and equal counts in the order the users first appear. *)
Example ranking_of_six_users :
  let acc id := mkAccount None (Some id) None in
  top_users_of [mkUser (Some 4) (Some "d@x") None None; mkUser (Some 6) None None None]
    [acc 1; acc 2; acc 3; acc 4; acc 5; acc 6; acc 4; acc 6; acc 4] =
  [ mkTopUser 4 3 (Some "d@x"); mkTopUser 6 2 None; mkTopUser 1 1 (Some "N/A");
    mkTopUser 2 1 (Some "N/A"); mkTopUser 3 1 (Some "N/A") ].
Proof. reflexivity. Qed.

(** * Further properties *)

(** ** The request executor: sleeps and what it looks at *)

Lemma retry_loop_ext {A} (self : BaseClient) (ep ep' : endpoint A) (n a : nat) :
  (∀ k, (a ≤ k < a + n)%nat → ep k = ep' k) →
  retry_loop self ep a n = retry_loop self ep' a n.
Proof.
  revert a. induction n as [|n IH]; intros a Hsame; [done|].
  simpl. rewrite <- (Hsame a) by lia.
  rewrite (IH (S a)) by (intros k Hk; apply Hsame; lia). done.
Qed.

Lemma make_request_first_success {A} (self : BaseClient) (ep : endpoint A) k payload :
  first_success self ep k payload → (_make_request self ep).1 = Some payload.
Proof.
  intros (Hk & Hp & Hbefore). unfold _make_request.
  destruct (retry_loop_spec self ep (Z.to_nat (max_retries self)) 0 eq_refl)
    as [(k' & p' & Hk' & Hp' & Hbefore' & -> & _) | (Hfail & _)].
  - simpl in *. destruct (lt_eq_lt_dec k k') as [[Hlt | ->] | Hgt].
    + specialize (Hbefore' k Hlt). rewrite Hp in Hbefore'. done.
    + congruence.
    + specialize (Hbefore k' Hgt). rewrite Hp' in Hbefore. done.
  - specialize (Hfail k Hk). simpl in Hfail. rewrite Hp in Hfail. done.
Qed.

Lemma make_request_all_fail {A} (self : BaseClient) (ep : endpoint A) :
  all_fail self ep → (_make_request self ep).1 = None.
Proof.
  intros Hfail. unfold _make_request.
  destruct (retry_loop_spec self ep (Z.to_nat (max_retries self)) 0 eq_refl)
    as [(k & p & Hk & Hp & _) | (_ & -> & _)]; [|done].
  specialize (Hfail k Hk). simpl in Hp. rewrite Hp in Hfail. done.
Qed.

Lemma retry_loop_raise {A} (self : BaseClient) (ep : endpoint A) (a n' : nat) e :
  (a + S n')%nat = Z.to_nat (max_retries self) → ep a = Raise e →
  retry_loop self ep a (S n') =
    if Nat.eqb n' 0 then (None, EvRequest a :: final_log e)
    else ((retry_loop self ep (S a) n').1,
          EvRequest a :: retry_log e :: EvSleep (retry_delay self)
            :: (retry_loop self ep (S a) n').2).
Proof.
  intros Hinv He. simpl. rewrite He, (retry_condition self a n' Hinv).
  by destruct e, (Nat.eqb n' 0), (retry_loop self ep (S a) n').
Qed.

Lemma retry_loop_attempts_nonempty {A} (self : BaseClient) (ep : endpoint A) a n :
  (a + S n)%nat = Z.to_nat (max_retries self) →
  attempts_made (retry_loop self ep a (S n)).2 ≠ [].
Proof.
  intros Hinv. destruct (ep a) as [p|e] eqn:He.
  - simpl. by rewrite He.
  - rewrite (retry_loop_raise self ep a n e Hinv He). by destruct (Nat.eqb n 0).
Qed.

Lemma retry_loop_sleeps {A} (self : BaseClient) (ep : endpoint A) (n a : nat) :
  (a + n)%nat = Z.to_nat (max_retries self) →
  let evs := (retry_loop self ep a n).2 in
  sleeps_made evs = replicate (length (attempts_made evs) - 1) (retry_delay self) ∧
  ∀ d, last evs ≠ Some (EvSleep d).
Proof.
  revert a. induction n as [|n IH]; intros a Hinv; [done|].
  destruct (ep a) as [p|e] eqn:He.
  - simpl. rewrite He. done.
  - rewrite (retry_loop_raise self ep a n e Hinv He).
    destruct (Nat.eqb_spec n 0) as [-> | Hn].
    + by destruct e.
    + destruct (IH (S a)) as [IHs IHl]; [lia|].
      destruct n as [|n]; [done|].
      pose proof (retry_loop_attempts_nonempty self ep (S a) n ltac:(lia)) as Hne.
      cbn zeta. set (r := retry_loop self ep (S a) (S n)) in *. cbn [snd].
      split.
      * assert (sleeps_made (EvRequest a :: retry_log e :: EvSleep (retry_delay self) :: r.2)
                = retry_delay self :: sleeps_made r.2) as -> by by destruct e.
        assert (attempts_made (EvRequest a :: retry_log e :: EvSleep (retry_delay self) :: r.2)
                = a :: attempts_made r.2) as -> by by destruct e.
        rewrite IHs. destruct (attempts_made r.2) as [|x l]; [done|].
        simpl. by rewrite Nat.sub_0_r.
      * intros d.
        assert (r.2 ≠ []) as Hr by (intros Hr; by rewrite Hr in Hne).
        destruct r.2 as [|ev evs] eqn:Hevs; [done|].
        rewrite !last_cons_cons. apply IHl.
Qed.

(** X1. The executor sleeps only between attempts: after [n] attempts it
    has slept [n - 1] times, each time for [retry_delay], and the sleep is
    never the last thing it does.  It sends nothing when [max_retries] is
    not positive. *)
Theorem make_request_sleeps {A} (self : BaseClient) (ep : endpoint A) :
  let evs := (_make_request self ep).2 in
  sleeps_made evs = replicate (length (attempts_made evs) - 1) (retry_delay self) ∧
  (∀ d, last evs ≠ Some (EvSleep d)) ∧
  (if decide (max_retries self ≤ 0) then _make_request self ep = (None, [])
   else attempts_made evs ≠ []).
Proof.
  intros evs.
  destruct (retry_loop_sleeps self ep (Z.to_nat (max_retries self)) 0 eq_refl)
    as [Hs Hl].
  split; [exact Hs|]. split; [exact Hl|].
  unfold evs, _make_request. case_decide as Hm.
  - by replace (Z.to_nat (max_retries self)) with 0%nat by lia.
  - destruct (Z.to_nat (max_retries self)) as [|n] eqn:Hn; [lia|].
    apply retry_loop_attempts_nonempty. lia.
Qed.

(** X2. The executor looks at the first [max_retries] attempts only: two
    endpoints that agree on them get the same result and the same
    events. *)
Theorem make_request_same_attempts {A} (self : BaseClient) (ep ep' : endpoint A) :
  same_attempts self ep ep' → _make_request self ep = _make_request self ep'.
Proof.
  intros Hsame. unfold _make_request. apply retry_loop_ext.
  intros k Hk. apply Hsame. lia.
Qed.

Lemma make_request_same_attempts_witness :
  _make_request (mkBaseClient 30 2 1.0)
    (λ k, if (k <? 2)%nat then Raise TimeoutError else Return "late") =
  _make_request (mkBaseClient 30 2 1.0) (λ _, Raise TimeoutError).
Proof.
  apply make_request_same_attempts.
  intros k Hk. simpl in Hk.
  destruct k as [|[|k]]; [reflexivity | reflexivity | lia].
Defined.

(** ** The service clients: fallbacks and pass-through *)

Lemma list_or_empty_Some {A} (r : list A) : list_or_empty (Some r) = r.
Proof. by destruct r. Qed.

(** X3. Retry exhaustion: when every attempt at its endpoint fails, a
    client operation that lists returns the empty list, the profile
    operation returns None, and a metrics query returns
    [{items: [], count: 0, dashboard: []}]. *)
Theorem clients_fallback_on_exhaustion (self : BaseClient) (up : Upstream)
    (more : UpstreamMore) (token : option string) (id : Z) (user_id : option Z)
    (filters : option (gmap string json)) :
  (all_fail self (ep_users up (auth_headers token)) →
   get_all_users self up token = []) ∧
  (all_fail self (ep_profile up id (auth_headers token)) →
   get_user_profile self up id token = None) ∧
  (all_fail self (ep_scraped_accounts up (auth_headers token)) →
   get_all_scraped_accounts self up token = []) ∧
  (all_fail self (ep_scraped_accounts_by_user up id (auth_headers token)) →
   get_scraped_accounts_by_user self up id token = []) ∧
  (all_fail self (ep_questions more (auth_headers token)) →
   get_all_questions self more token = []) ∧
  (all_fail self (ep_dbquery_user up (metrics_payload user_id filters)) →
   query_user_metrics self up user_id filters =
     mkMetrics (Some []) (Some 0) (Some [])) ∧
  (all_fail self (ep_dbquery_admin more (admin_payload user_id filters)) →
   query_admin_metrics self more user_id filters =
     mkMetrics (Some []) (Some 0) (Some [])) ∧
  (all_fail self (ep_dashboard up) → get_dashboard_info self up = []).
Proof.
  unfold get_all_users, get_user_profile, get_all_scraped_accounts,
    get_scraped_accounts_by_user, get_all_questions, query_user_metrics,
    query_admin_metrics, get_dashboard_info.
  repeat split; intros Hfail; by rewrite (make_request_all_fail _ _ Hfail).
Qed.

Lemma clients_fallback_on_exhaustion_witness :
  get_all_users (mkBaseClient 30 3 1.0) upstream_down None = [] ∧
  get_user_profile (mkBaseClient 30 3 1.0) upstream_down 7 None = None ∧
  query_user_metrics (mkBaseClient 30 3 1.0) upstream_down (Some 7) None =
    mkMetrics (Some []) (Some 0) (Some []).
Proof.
  destruct (clients_fallback_on_exhaustion (mkBaseClient 30 3 1.0) upstream_down
              (mkUpstreamMore (λ _, refused) (λ _, refused)) None 7 (Some 7) None)
    as (Husers & Hprofile & _ & _ & _ & Hmetrics & _).
  split; [|split].
  - apply Husers. intros k Hk. reflexivity.
  - apply Hprofile. intros k Hk. reflexivity.
  - apply Hmetrics. intros k Hk. reflexivity.
Defined.

(** X4. When some attempt is the first to succeed, a listing operation
    returns that attempt's payload as it is, and the profile operation
    returns it as it is, empty object included.  A metrics query returns
    the payload when it has at least one key; a reply that is the empty
    object is replaced by [{items: [], count: 0, dashboard: []}], as if
    the service had failed. *)
Theorem clients_pass_payload_through (self : BaseClient) (up : Upstream)
    (more : UpstreamMore) (token : option string) (id : Z) (user_id : option Z)
    (filters : option (gmap string json)) (k : nat) :
  (∀ r, first_success self (ep_users up (auth_headers token)) k r →
        get_all_users self up token = r) ∧
  (∀ r, first_success self (ep_profile up id (auth_headers token)) k r →
        get_user_profile self up id token = Some r) ∧
  (∀ r, first_success self (ep_scraped_accounts up (auth_headers token)) k r →
        get_all_scraped_accounts self up token = r) ∧
  (∀ r, first_success self (ep_scraped_accounts_by_user up id (auth_headers token)) k r →
        get_scraped_accounts_by_user self up id token = r) ∧
  (∀ r, first_success self (ep_questions more (auth_headers token)) k r →
        get_all_questions self more token = r) ∧
  (∀ r, first_success self (ep_dashboard up) k r → get_dashboard_info self up = r) ∧
  (∀ r, first_success self (ep_dbquery_user up (metrics_payload user_id filters)) k r →
        query_user_metrics self up user_id filters =
          match r with
          | mkMetrics None None None => mkMetrics (Some []) (Some 0) (Some [])
          | _ => r
          end) ∧
  (∀ r, first_success self (ep_dbquery_admin more (admin_payload user_id filters)) k r →
        query_admin_metrics self more user_id filters =
          match r with
          | mkMetrics None None None => mkMetrics (Some []) (Some 0) (Some [])
          | _ => r
          end).
Proof.
  unfold get_all_users, get_user_profile, get_all_scraped_accounts,
    get_scraped_accounts_by_user, get_all_questions, query_user_metrics,
    query_admin_metrics, get_dashboard_info.
  repeat split; intros r Hfirst; rewrite (make_request_first_success _ _ _ _ Hfirst);
    try apply list_or_empty_Some; try done;
    by destruct r as [[?|] [?|] [?|]].
Qed.

Lemma clients_pass_payload_through_witness :
  get_all_users (mkBaseClient 30 3 1.0) empty_reply_upstream None =
    [mkUser (Some 1) None None None] ∧
  query_user_metrics (mkBaseClient 30 3 1.0) empty_reply_upstream None None =
    mkMetrics (Some []) (Some 0) (Some []).
Proof.
  destruct (clients_pass_payload_through (mkBaseClient 30 3 1.0) empty_reply_upstream
              (mkUpstreamMore (λ _, refused) (λ _, refused)) None 0 None None 2)
    as (Husers & _ & _ & _ & _ & _ & Hmetrics & _).
  split.
  - apply Husers. split; [simpl; lia|]. split; [reflexivity|].
    intros [|[|j]] Hj; [reflexivity | reflexivity | lia].
  - apply (Hmetrics (mkMetrics None None None)).
    split; [simpl; lia|]. split; [reflexivity|].
    intros [|[|j]] Hj; [reflexivity | reflexivity | lia].
Defined.

(** ** The body of the metrics queries *)

Lemma metrics_payload_union user_id filters :
  metrics_payload user_id filters =
    default ∅ filters ∪
    (if truthy_int user_id
     then {[ "userId" := JNum (inject_Z (default 0 user_id)) ]} else ∅).
Proof.
  unfold metrics_payload.
  assert (match user_id with
          | Some id => if truthy_int user_id
                       then ({[ "userId" := JNum (inject_Z id) ]} : gmap string json)
                       else ∅
          | None => ∅
          end =
          if truthy_int user_id
          then {[ "userId" := JNum (inject_Z (default 0 user_id)) ]} else ∅) as ->
    by by destruct user_id.
  destruct filters as [f|]; simpl.
  - case_decide as Hf; [|done]. by rewrite Hf, (left_id_L ∅ (∪)).
  - by rewrite (left_id_L ∅ (∪)).
Qed.

(** X5. In the body of the user metrics query the filters win: a key of
    the filters keeps the filter's value, [userId] included; any other key
    than [userId] is absent; and [userId] carries the user id exactly when
    the filters have no [userId] and the user id is present and not 0. *)
Theorem metrics_payload_lookup (user_id : option Z) (filters : option (gmap string json))
    (key : string) :
  metrics_payload user_id filters !! key =
    match default ∅ filters !! key with
    | Some v => Some v
    | None =>
      match user_id with
      | Some id =>
        if decide (key = "userId" ∧ id ≠ 0) then Some (JNum (inject_Z id)) else None
      | None => None
      end
    end.
Proof.
  rewrite metrics_payload_union, lookup_union.
  destruct (default ∅ filters !! key) as [v|] eqn:Hf; simpl.
  - by rewrite union_Some_l.
  - rewrite (left_id_L None (∪)).
    destruct user_id as [id|]; simpl; [|done].
    destruct (Z.eqb_spec id 0) as [->|Hid]; simpl.
    + rewrite decide_False by (intros [_ ?]; done). done.
    + destruct (decide (key = "userId")) as [->|Hk].
      * rewrite decide_True by done. by rewrite lookup_singleton_eq.
      * rewrite decide_False by (intros [? _]; done).
        by rewrite lookup_singleton_ne.
Qed.

(** ** The coordinator: any number of failures, and the user id *)

(** X6. Isolation for any combination of failures: every slot of the
    snapshot is what its own call returned, or its default when that call
    raised, whatever the other three calls did, and the metadata is built
    from these four slots.  When all four calls raise, the snapshot is
    empty, the counters are 0 and the four services are "no_data". *)
Theorem consolidated_any_failures (cl : Clients) (now : string) (user_id : option Z) :
  ∃ s,
    get_consolidated_data cl now user_id = Return s ∧
    users s = match users_call cl user_id with Return v => v | Raise _ => [] end ∧
    scraped_accounts s =
      match accounts_call cl user_id with Return v => v | Raise _ => [] end ∧
    metrics s =
      match metrics_call cl user_id with
      | Return v => v
      | Raise _ => mkMetrics (Some []) (Some 0) (Some [])
      end ∧
    dashboard_data s = match dashboard_call cl with Return v => v | Raise _ => [] end ∧
    metadata s =
      _build_metadata now (users s) (scraped_accounts s) (metrics s) (dashboard_data s) ∧
    (raises (users_call cl user_id) ∧ raises (accounts_call cl user_id) ∧
     raises (metrics_call cl user_id) ∧ raises (dashboard_call cl) →
     s = {| users := []; scraped_accounts := [];
            metrics := mkMetrics (Some []) (Some 0) (Some []);
            dashboard_data := [];
            metadata :=
              {| total_users := 0; total_accounts := 0; total_posts_analyzed := 0;
                 timestamp := now;
                 services_status :=
                   {[ "microservice1" := "no_data"; "microservice2" := "no_data";
                      "microservice3" := "no_data"; "microservice4" := "no_data" ]} |} |}).
Proof.
  rewrite get_consolidated_data_snapshot. eexists. split; [reflexivity|].
  repeat (split; [done|]).
  unfold raises.
  destruct (users_call cl user_id), (accounts_call cl user_id),
    (metrics_call cl user_id), (dashboard_call cl);
    intros (? & ? & ? & ?); done.
Qed.

Lemma consolidated_any_failures_witness :
  get_consolidated_data all_raise "t0" None =
    Return (snapshot_of "t0" [] [] (mkMetrics (Some []) (Some 0) (Some [])) []).
Proof.
  destruct (consolidated_any_failures all_raise "t0" None)
    as (s & Hs & _ & _ & _ & _ & _ & Hall).
  rewrite Hs. f_equal. apply Hall. by repeat split.
Defined.

(** X7. With a user id that is not 0 the users slot holds at most one
    user: the profile the user service returned, when it returned one that
    is not the empty object.  When the profile is absent the slot is empty
    and microservice1 is reported "no_data".  The list of all users is not
    used. *)
Theorem consolidated_single_profile (cl : Clients) (now : string) (id : Z) :
  id ≠ 0 →
  ∃ s,
    get_consolidated_data cl now (Some id) = Return s ∧
    (length (users s) ≤ 1)%nat ∧
    total_users (metadata s) = length (users s) ∧
    (∀ u, u ∈ users s →
          ms1_get_user_profile cl id = Return (Some u) ∧ truthy_user u = true) ∧
    (∀ u, ms1_get_user_profile cl id = Return (Some u) → truthy_user u = true →
          users s = [u]) ∧
    (ms1_get_user_profile cl id = Return None →
     users s = [] ∧
     services_status (metadata s) !! "microservice1" = Some "no_data") ∧
    scraped_accounts s =
      match ms2_get_scraped_accounts_by_user cl id with
      | Return v => v
      | Raise _ => []
      end.
Proof.
  intros Hid. rewrite get_consolidated_data_snapshot. eexists. split; [reflexivity|].
  unfold users_call, accounts_call, truthy_int. simpl.
  destruct (Z.eqb_spec id 0) as [|_]; [done|]. simpl.
  destruct (ms1_get_user_profile cl id) as [[p|]|e]; simpl;
    [destruct (truthy_user p) eqn:Hp; simpl|..].
  all: split; [lia|]; split; [done|].
  all: split; [intros u Hu; try by apply elem_of_nil in Hu|].
  all: try (apply list_elem_of_singleton in Hu as ->; done).
  all: split; [intros u Hu Ht; congruence|].
  all: split; [intros Hnone; by try discriminate Hnone|].
  all: by destruct (ms2_get_scraped_accounts_by_user cl id).
Qed.

Lemma consolidated_single_profile_witness :
  ∃ s, get_consolidated_data metrics_down "t0" (Some 7) = Return s ∧ users s = [].
Proof.
  destruct (consolidated_single_profile metrics_down "t0" 7 ltac:(lia))
    as (s & Hs & _ & _ & _ & _ & Hnone & _).
  exists s. split; [exact Hs|]. apply Hnone. reflexivity.
Defined.

(** X8. The whole stack with every service down: when every attempt at
    every endpoint fails, the HTTP clients turn the exhausted retries into
    their defaults and the coordinator returns the empty snapshot, with or
    without user id. *)
Theorem http_stack_all_down (cfg : BaseClient) (up : Upstream) (now : string)
    (user_id : option Z) :
  (∀ h, all_fail cfg (ep_users up h)) →
  (∀ id h, all_fail cfg (ep_profile up id h)) →
  (∀ h, all_fail cfg (ep_scraped_accounts up h)) →
  (∀ id h, all_fail cfg (ep_scraped_accounts_by_user up id h)) →
  (∀ body, all_fail cfg (ep_dbquery_user up body)) →
  all_fail cfg (ep_dashboard up) →
  get_consolidated_data (http_clients cfg up) now user_id =
    Return (snapshot_of now [] [] (mkMetrics (Some []) (Some 0) (Some [])) []) ∧
  ∀ service, service ∈ service_names →
    services_status (_build_metadata now [] []
      (mkMetrics (Some []) (Some 0) (Some [])) []) !! service = Some "no_data".
Proof.
  intros Husers Hprofile Haccs Hbyuser Hmetrics Hdash. split.
  - rewrite get_consolidated_data_snapshot.
    unfold users_call, accounts_call, metrics_call, dashboard_call. simpl.
    unfold get_all_users, get_user_profile, get_all_scraped_accounts,
      get_scraped_accounts_by_user, query_user_metrics, get_dashboard_info.
    rewrite (make_request_all_fail _ _ (Husers _)),
      (make_request_all_fail _ _ (Haccs _)),
      (make_request_all_fail _ _ (Hmetrics _)),
      (make_request_all_fail _ _ Hdash).
    destruct user_id as [id|]; [|done].
    rewrite (make_request_all_fail _ _ (Hprofile id _)),
      (make_request_all_fail _ _ (Hbyuser id _)).
    by destruct (truthy_int (Some id)).
  - intros service Hin. unfold service_names in Hin.
    repeat (apply elem_of_cons in Hin as [-> | Hin]; [done|]).
    by apply elem_of_nil in Hin.
Qed.

Lemma http_stack_all_down_witness :
  get_consolidated_data (http_clients (mkBaseClient 30 3 1.0) upstream_down) "t0" (Some 7) =
    Return (snapshot_of "t0" [] [] (mkMetrics (Some []) (Some 0) (Some [])) []).
Proof.
  apply (http_stack_all_down (mkBaseClient 30 3 1.0) upstream_down "t0" (Some 7));
    intros; intros k Hk; reflexivity.
Defined.

(** ** The summary always returns *)


(** ** Which endpoints a call consults *)

Lemma make_request_result_same {A} (self : BaseClient) (ep ep' : endpoint A) :
  same_attempts self ep ep' → (_make_request self ep).1 = (_make_request self ep').1.
Proof.
  intros Hsame. unfold _make_request. f_equal. apply retry_loop_ext.
  intros k Hk. apply Hsame. lia.
Qed.

(** X10. With a user id that is not 0, the snapshot depends on the
    upstream only through four endpoints, asked without headers: the
    profile of that user, the scraped accounts of that user, the metrics
    query whose body is [{userId: id}], and the dashboard.  Without user id
    (or with user id 0) it depends only on the list of users, the list of
    scraped accounts, the metrics query with the empty body, and the
    dashboard.  In both cases only the first [max_retries] attempts
    matter. *)
Theorem consolidated_consults (cfg : BaseClient) (up up' : Upstream) (now : string) :
  (∀ id, id ≠ 0 →
     same_attempts cfg (ep_profile up id ∅) (ep_profile up' id ∅) →
     same_attempts cfg (ep_scraped_accounts_by_user up id ∅)
       (ep_scraped_accounts_by_user up' id ∅) →
     same_attempts cfg (ep_dbquery_user up {[ "userId" := JNum (inject_Z id) ]})
       (ep_dbquery_user up' {[ "userId" := JNum (inject_Z id) ]}) →
     same_attempts cfg (ep_dashboard up) (ep_dashboard up') →
     get_consolidated_data (http_clients cfg up) now (Some id) =
     get_consolidated_data (http_clients cfg up') now (Some id)) ∧
  (∀ user_id, user_id = None ∨ user_id = Some 0 →
     same_attempts cfg (ep_users up ∅) (ep_users up' ∅) →
     same_attempts cfg (ep_scraped_accounts up ∅) (ep_scraped_accounts up' ∅) →
     same_attempts cfg (ep_dbquery_user up ∅) (ep_dbquery_user up' ∅) →
     same_attempts cfg (ep_dashboard up) (ep_dashboard up') →
     get_consolidated_data (http_clients cfg up) now user_id =
     get_consolidated_data (http_clients cfg up') now user_id).
Proof.
  split.
  - intros id Hid Hprofile Haccs Hmetrics Hdash.
    rewrite !get_consolidated_data_snapshot.
    unfold users_call, accounts_call, metrics_call, dashboard_call, truthy_int.
    destruct (Z.eqb_spec id 0) as [|_]; [done|]. simpl.
    unfold get_user_profile, get_scraped_accounts_by_user, query_user_metrics,
      get_dashboard_info, metrics_payload, auth_headers, truthy_int.
    destruct (Z.eqb_spec id 0) as [|_]; [done|]. simpl.
    by rewrite (make_request_result_same _ _ _ Hprofile),
      (make_request_result_same _ _ _ Haccs),
      (make_request_result_same _ _ _ Hmetrics),
      (make_request_result_same _ _ _ Hdash).
  - intros user_id Huid Husers Haccs Hmetrics Hdash.
    rewrite !get_consolidated_data_snapshot.
    assert (users_call (http_clients cfg up) user_id = Return (get_all_users cfg up None) ∧
            users_call (http_clients cfg up') user_id = Return (get_all_users cfg up' None) ∧
            accounts_call (http_clients cfg up) user_id =
              Return (get_all_scraped_accounts cfg up None) ∧
            accounts_call (http_clients cfg up') user_id =
              Return (get_all_scraped_accounts cfg up' None) ∧
            metrics_payload user_id None = ∅) as (-> & -> & -> & -> & Hbody)
      by (destruct Huid as [-> | ->]; done).
    unfold metrics_call, dashboard_call. simpl.
    unfold get_all_users, get_all_scraped_accounts, query_user_metrics,
      get_dashboard_info, auth_headers. rewrite Hbody.
    by rewrite (make_request_result_same _ _ _ Husers),
      (make_request_result_same _ _ _ Haccs),
      (make_request_result_same _ _ _ Hmetrics),
      (make_request_result_same _ _ _ Hdash).
Qed.

Lemma consolidated_consults_witness :
  get_consolidated_data (http_clients (mkBaseClient 30 3 1.0) one_user_upstream) "t0" (Some 7) =
  get_consolidated_data (http_clients (mkBaseClient 30 3 1.0) other_lists_upstream) "t0" (Some 7).
Proof.
  destruct (consolidated_consults (mkBaseClient 30 3 1.0) one_user_upstream
              other_lists_upstream "t0") as [Hid _].
  apply Hid; [lia | intros k Hk; try reflexivity ..].
  simpl in Hk. destruct k as [|[|[|k]]]; [reflexivity.. | lia].
Defined.

(** ** The summary without metric items *)

(** X11. When the metrics call raises, the summary is still produced: the
    three totals and the average engagement are 0, the account and post
    rankings are empty and the trend is "insufficient_data" with growth
    rate 0, while the user and account counts and the user ranking still
    come from the users and accounts calls. *)
Theorem summary_when_metrics_fail (cl : Clients) (now now' : string)
    (user_id : option Z) :
  raises (metrics_call cl user_id) →
  ∃ r,
    get_summary_data cl now now' user_id = Return r ∧
    total_views (summary r) = 0 ∧ total_likes (summary r) = 0 ∧
    total_interactions (summary r) = 0 ∧ average_engagement (summary r) = 0%Q ∧
    top_accounts (rankings r) = [] ∧ best_engagement (rankings r) = [] ∧
    trends r = {| growth_rate := 0; engagement_trend := "insufficient_data" |} ∧
    ss_total_users (summary r) =
      length (match users_call cl user_id with Return v => v | Raise _ => [] end) ∧
    ss_total_accounts (summary r) =
      length (match accounts_call cl user_id with Return v => v | Raise _ => [] end) ∧
    top_users (rankings r) =
      top_users_of
        (match users_call cl user_id with Return v => v | Raise _ => [] end)
        (match accounts_call cl user_id with Return v => v | Raise _ => [] end).
Proof.
  intros Hraise. unfold get_summary_data. rewrite get_consolidated_data_snapshot.
  destruct (metrics_call cl user_id) as [m|e]; [done|].
  eexists. split; [reflexivity|]. by repeat split.
Qed.

Lemma summary_when_metrics_fail_witness :
  ∃ r, get_summary_data metrics_down "t0" "t1" None = Return r ∧
       trends r = {| growth_rate := 0; engagement_trend := "insufficient_data" |} ∧
       ss_total_users (summary r) = 1%nat.
Proof.
  destruct (summary_when_metrics_fail metrics_down "t0" "t1" None eq_refl)
    as (r & Hr & _ & _ & _ & _ & _ & _ & Ht & Hu & _).
  exists r. split; [exact Hr|]. split; [exact Ht | exact Hu].
Defined.

(** ** The ranking of posts *)





(** ** Order of the items *)

Lemma NoDup_fmap_elem_inj {A B} (f : A → B) (l : list A) x y :
  NoDup (f <$> l) → x ∈ l → y ∈ l → f x = f y → x = y.
Proof.
  induction l as [|z l IH]; csimpl; intros Hnd Hx Hy Hf.
  - by apply elem_of_nil in Hx.
  - apply NoDup_cons in Hnd as [Hz Hnd].
    apply elem_of_cons in Hx as [->|Hx]; apply elem_of_cons in Hy as [->|Hy].
    + done.
    + exfalso. apply Hz. rewrite Hf. by apply list_elem_of_fmap_2.
    + exfalso. apply Hz. rewrite <- Hf. by apply list_elem_of_fmap_2.
    + by apply IH.
Qed.

Lemma sorted_by_date_perm (l1 l2 : list MetricItem) :
  l1 ≡ₚ l2 → NoDup (date_key <$> l1) →
  sorted date_key String.leb l1 = sorted date_key String.leb l2.
Proof.
  intros Hperm Hnd.
  assert (Transitive date_le) as Htrans
    by (intros x y z; apply string_leb_trans).
  apply (Sorted_unique_strong date_le).
  - intros x1 x2 Hx1 Hx2 H12 H21.
    apply sorted_elem_of in Hx1. apply sorted_elem_of in Hx2.
    rewrite <- Hperm in Hx2.
    apply (NoDup_fmap_elem_inj date_key l1); [done..|].
    by apply String.leb_antisym.
  - apply (sorted_Sorted date_key String.leb), String.leb_total.
  - apply (sorted_Sorted date_key String.leb), String.leb_total.
  - by rewrite !sorted_Permutation.
Qed.

(** X14. The trend does not depend on the order in which the items
    arrive, as long as no two items have the same date (two missing dates
    count as the same): two snapshots whose items are permutations of each
    other get the same trend and growth rate. *)
Theorem trends_order_independent (c1 c2 : ConsolidatedResponse) :
  items_of c1 ≡ₚ items_of c2 →
  NoDup (date_key <$> items_of c1) →
  _calculate_trends c1 = _calculate_trends c2.
Proof.
  intros Hperm Hnd. unfold _calculate_trends.
  rewrite <- (sorted_by_date_perm _ _ Hperm Hnd).
  by rewrite <- (Permutation_length Hperm).
Qed.

Lemma trends_order_independent_witness :
  _calculate_trends
    (with_items [post "2024-01-03" 5; post "2024-01-02" 23; post "2024-01-01" 20]) =
  _calculate_trends
    (with_items [post "2024-01-02" 23; post "2024-01-01" 20; post "2024-01-03" 5]).
Proof.
  apply trends_order_independent.
  - apply (Permutation_cons_append [post "2024-01-02" 23; post "2024-01-01" 20]).
  - apply (bool_decide_unpack _). reflexivity.
Defined.

(** With equal dates the order of arrival matters: the stable sort keeps
    it. *)
Example trends_depend_on_order_of_equal_dates :
  _calculate_trends (with_items [post "2024-01-01" 1; post "2024-01-01" 3]) ≠
  _calculate_trends (with_items [post "2024-01-01" 3; post "2024-01-01" 1]).
Proof. vm_compute. discriminate. Qed.

(** *** The summary *)

Section summary_order.
Import binary64.

Lemma total_Permutation (f : MetricItem → Z) l1 l2 :
  l1 ≡ₚ l2 → total f l1 = total f l2.
Proof. induction 1; simpl; lia. Qed.

Lemma sum_from_ints (a : Z) (l : list MetricItem) :
  Forall int_engagement l →
  sum_from (PyInt a) (engagement_or_0 <$> l) = Return (PyInt (a + int_total l)).
Proof.
  intros Hl. revert a. induction Hl as [|x l [z Hz] _ IH]; intros a; csimpl.
  - f_equal. f_equal. unfold int_total. simpl. lia.
  - rewrite Hz. cbn [py_add bind]. rewrite IH.
    f_equal. f_equal. unfold int_total. simpl. rewrite Hz. simpl. lia.
Qed.

(** For engagements that are [int]s the mean is the exact sum, divided
    once. *)
Lemma engaged_mean_ints (items : list MetricItem) :
  Forall int_engagement items →
  engaged_mean sum_left_to_right items =
    py_truediv (PyInt (int_total (engaged items)))
      (PyInt (Z.of_nat (length (engaged items)))).
Proof.
  intros Hints. unfold engaged_mean, sum_left_to_right.
  rewrite sum_from_ints; [done|].
  apply Forall_forall. intros item Hin.
  apply list_elem_of_filter in Hin as [_ Hin].
  by apply (proj1 (Forall_forall _ _) Hints).
Qed.

(** X15. The three totals of a summary do not depend on the order of the
    items, however the builtin [sum] adds up.  The average can depend on
    it when engagements are floats; when every engagement is an [int],
    the sum is exact and the mean is that sum divided once by the number
    of items that count, so that the whole summary, or its error, is the
    same for every order of the items. *)
Theorem summary_order_independent (sum : list number → outcome number)
    (c1 c2 : ConsolidatedResponse) :
  let items1 := default [] (m_items (metrics c1)) in
  let items2 := default [] (m_items (metrics c2)) in
  let counted1 := filter (λ item, truthy_num (engagement item) = true) items1 in
  items1 ≡ₚ items2 →
  (∀ s1 s2,
     _calculate_summary_stats sum c1 = Return s1 →
     _calculate_summary_stats sum c2 = Return s2 →
     total_views s1 = total_views s2 ∧
     total_likes s1 = total_likes s2 ∧
     total_interactions s1 = total_interactions s2) ∧
  ((∀ item e, item ∈ items1 → engagement item = Some e → ∃ z, e = PyInt z) →
   engaged_mean sum_left_to_right items1 =
     py_truediv (PyInt (total (λ item, int_of (default (PyInt 0) (engagement item)))
                          counted1))
       (PyInt (Z.of_nat (length counted1))) ∧
   engaged_mean sum_left_to_right items1 = engaged_mean sum_left_to_right items2 ∧
   (metadata c1 = metadata c2 →
    _calculate_summary_stats sum_left_to_right c1 =
      _calculate_summary_stats sum_left_to_right c2)).
Proof.
  intros items1 items2 counted1 Hperm.
  change (items_of c1 ≡ₚ items_of c2) in Hperm. split.
  - intros s1 s2. rewrite !calculate_summary_stats_mean.
    intros H1 H2.
    assert (∀ (c : ConsolidatedResponse) (m : outcome number) s,
              bind m (λ avg, Return (summary_with c (py_round2 avg))) = Return s →
              ∃ avg, s = summary_with c avg) as Hshape.
    { intros c [v|e] s; simpl; [|done]. intros [= <-]. eauto. }
    apply Hshape in H1 as [a1 ->]. apply Hshape in H2 as [a2 ->].
    unfold summary_with. simpl.
    by rewrite !(total_Permutation _ _ _ Hperm).
  - intros Hint.
    assert (Forall int_engagement (items_of c1)) as Hints.
    { apply Forall_forall. intros item Hin. unfold int_engagement, engagement_or_0.
      destruct (engagement item) as [e|] eqn:He; simpl; [|eauto].
      by apply (Hint item e). }
    assert (Forall int_engagement (items_of c2)) as Hints2 by by rewrite <- Hperm.
    assert (engaged (items_of c1) ≡ₚ engaged (items_of c2)) as Heng
      by (unfold engaged; by rewrite Hperm).
    assert (engaged_mean sum_left_to_right (items_of c1) =
            engaged_mean sum_left_to_right (items_of c2)) as Hmean.
    { rewrite !engaged_mean_ints by done.
      unfold int_total. by rewrite (total_Permutation _ _ _ Heng),
        (Permutation_length Heng). }
    split; [by apply engaged_mean_ints|]. split; [exact Hmean|].
    intros Hmeta. rewrite !calculate_summary_stats_mean, Hmean.
    assert (∀ avg, summary_with c1 avg = summary_with c2 avg) as Hsame.
    { intros avg. unfold summary_with.
      by rewrite Hmeta, !(total_Permutation _ _ _ Hperm). }
    destruct (decide (engaged (items_of c1) = [])) as [Hnil|Hne].
    + rewrite Hnil in Heng. apply Permutation_nil_l in Heng.
      rewrite decide_True by done. cbn [bind]. by rewrite Hsame.
    + rewrite decide_False.
      * destruct (engaged_mean sum_left_to_right (items_of c2)); cbn [bind];
          [by rewrite Hsame | done].
      * intros Hnil. rewrite Hnil in Heng. by apply Permutation_nil_r in Heng.
Qed.

Lemma summary_order_independent_witness :
  _calculate_summary_stats sum_left_to_right
    (with_items [post "c" (PyInt 0); post "a" (PyInt 1); post "b" (PyInt 2)]) =
  _calculate_summary_stats sum_left_to_right
    (with_items [post "a" (PyInt 1); post "b" (PyInt 2); post "c" (PyInt 0)]).
Proof.
  destruct (summary_order_independent sum_left_to_right
              (with_items [post "c" (PyInt 0); post "a" (PyInt 1); post "b" (PyInt 2)])
              (with_items [post "a" (PyInt 1); post "b" (PyInt 2); post "c" (PyInt 0)]))
    as [_ Hints].
  - apply (Permutation_cons_append [post "a" (PyInt 1); post "b" (PyInt 2)]).
  - destruct Hints as (_ & _ & Hsame).
    + intros item e Hin He. simpl in Hin.
      repeat (apply elem_of_cons in Hin as [-> | Hin]; [injection He as <-; eauto|]).
      by apply elem_of_nil in Hin.
    + apply Hsame. reflexivity.
Defined.

End summary_order.

(** ** The status map of the prober *)

Lemma char_length_take_chars (n : nat) (s : string) :
  (char_length (take_chars n s) ≤ n)%nat.
Proof.
  revert n. induction s as [|c s IH]; intros n; simpl; [lia|].
  destruct (is_continuation c) eqn:Hc; simpl; rewrite ?Hc; [apply IH|].
  destruct n as [|n]; simpl; rewrite ?Hc; [lia|].
  specialize (IH n). lia.
Qed.

Lemma char_length_app (s1 s2 : string) :
  char_length (s1 +:+ s2) = (char_length s1 + char_length s2)%nat.
Proof.
  induction s1 as [|c s1 IH]; simpl; [done|].
  destruct (is_continuation c); simpl; by rewrite IH.
Qed.

Lemma take_chars_short (n : nat) (s : string) :
  (char_length s ≤ n)%nat → take_chars n s = s.
Proof.
  revert n. induction s as [|c s IH]; intros n; simpl; [done|].
  destruct (is_continuation c).
  - intros Hlen. by rewrite IH.
  - destruct n as [|n]; [lia|]. intros Hlen. rewrite IH; [done | lia].
Qed.

Lemma reported_status_shape {A} (elapsed : bool) (probe : outcome A) :
  status_shape (reported_status elapsed probe) ∧
  (char_length (reported_status elapsed probe) ≤ 61)%nat.
Proof.
  unfold reported_status, status_shape.
  destruct elapsed; [split; [auto | simpl; lia]|].
  destruct probe as [v|e]; [split; [auto | simpl; lia]|].
  assert (char_length ("unhealthy: " +:+ take_chars 50 (str e)) ≤ 61)%nat
    as Hlen.
  { rewrite char_length_app. pose proof (char_length_take_chars 50 (str e)).
    change (char_length "unhealthy: ") with 11%nat. lia. }
  pose proof (char_length_take_chars 50 (str e)) as Hcut.
  destruct e; (split; [|try done; simpl; lia]); eauto.
Qed.

(** X17. The prober always returns a status map, with exactly the four
    service names as keys.  Every status is "healthy", "timeout" or
    "unhealthy: " followed by the first 50 characters of an error, so it
    is at most 61 characters long; an error of at most 50 characters is
    reported in full.  Characters are counted, not bytes. *)
Theorem health_map_shape (cl : Clients) (sched : Schedule) :
  ∃ health,
    check_services_health cl sched = Return health ∧
    dom health = list_to_set service_names ∧
    (∀ name status, health !! name = Some status →
       (char_length status ≤ 61)%nat ∧
       (status = "healthy" ∨ status = "timeout" ∨
        ∃ e, status = "unhealthy: " +:+ take_chars 50 (str e) ∧
             (char_length (take_chars 50 (str e)) ≤ 50)%nat)) ∧
    (∀ A name (probe : outcome A) msg,
       (char_length msg ≤ 50)%nat →
       probe_pending_after sched name 2.0 = false →
       probe = Raise (OtherError msg) →
       _check_service_health sched name probe = Return (name, "unhealthy: " +:+ msg)).
Proof.
  rewrite check_services_health_cases. eexists. split; [reflexivity|].
  split; [|split].
  - destruct (gather_pending_after sched 5.0); unfold all_timeout, probed;
      rewrite !dom_insert_L; unfold service_names; simpl; set_solver.
  - intros name status Hlook.
    assert (status = "timeout" ∨ ∃ A b (probe : outcome A),
              status = reported_status b probe) as [-> | (A & b & probe & ->)].
    { destruct (gather_pending_after sched 5.0); unfold all_timeout, probed in Hlook;
        repeat (apply lookup_insert_Some in Hlook as [[_ <-] | [_ Hlook]];
                [eauto 6|]);
        apply lookup_singleton_Some in Hlook as [_ <-]; eauto 6. }
    + split; [simpl; lia | auto].
    + destruct (reported_status_shape b probe) as [Hshape Hlen]. done.
  - intros A name probe msg Hlen Hp ->.
    rewrite check_service_health_returns, Hp. unfold reported_status. simpl.
    by rewrite take_chars_short.
Qed.

Lemma health_map_shape_witness :
  _check_service_health slow_accounts "microservice3"
    (ms3_query_user_metrics metrics_down None) =
  Return ("microservice3", "unhealthy: connection refused").
Proof.
  destruct (health_map_shape metrics_down slow_accounts) as (h & _ & _ & _ & Hfull).
  apply Hfull; [simpl; lia | reflexivity | reflexivity].
Defined.

(** ** The user ranking against the account total *)





